(** * pcs-py: the [Rider] scraper of [pcs_scraper/rider.py]

    A shallow embedding of the extraction methods of class [Rider]
    together with the parts of Python, BeautifulSoup and pandas they call,
    followed by the properties of the extractors.

    Conventions.
    - A Python [str] is a [string]; a character stands for the code point
      of the same number (the range below 256).
    - A Python [int] is a [Z].
    - A call that may raise returns a [result]: [Ok v] or [Raise e]. *)

From Stdlib Require Import String Ascii List ZArith Lia Bool.
Import ListNotations.

Local Open Scope string_scope.
Local Open Scope Z_scope.

(* ================================================================== *)
(** * Python: exceptions, [str], [int], [float]                        *)
(* ================================================================== *)

Module Py.

(** The exceptions the modelled code can raise. *)
Inductive exn : Type :=
| AttributeError     (* attribute access on [None] *)
| ValueError         (* [int], [float], [DataFrame] on bad data *)
| IndexError         (* list index out of range *)
| KeyError           (* [tag[key]] on a missing attribute *)
| TypeError          (* subscripting [None] *)
| UnboundLocalError. (* a local variable read before assignment *)

Inductive result (A : Type) : Type :=
| Ok (a : A)
| Raise (e : exn).
Arguments Ok {A} a.
Arguments Raise {A} e.

Definition bind {A B} (m : result A) (k : A -> result B) : result B :=
  match m with
  | Ok a => k a
  | Raise e => Raise e
  end.

Definition is_ok {A} (m : result A) : bool :=
  match m with Ok _ => true | Raise _ => false end.

(** [x.attr] where [x] may be [None]. *)
Definition deref {A} (o : option A) : result A :=
  match o with
  | Some a => Ok a
  | None => Raise AttributeError
  end.

(** [x[...]] where [x] may be [None]. *)
Definition subscriptable {A} (o : option A) : result A :=
  match o with
  | Some a => Ok a
  | None => Raise TypeError
  end.

(** [for x in l: s = body(s, x)]: the loop state is threaded through the
    iterations, an exception leaves the loop. *)
Fixpoint for_each {A S} (body : S -> A -> result S) (l : list A) (s : S)
  : result S :=
  match l with
  | [] => Ok s
  | x :: l' => bind (body s x) (for_each body l')
  end.

(** [enumerate(l)] from index [i]. *)
Fixpoint enumerate_from {A} (i : Z) (l : list A) : list (Z * A) :=
  match l with
  | [] => []
  | x :: l' => (i, x) :: enumerate_from (i + 1) l'
  end.

Definition enumerate {A} (l : list A) : list (Z * A) := enumerate_from 0 l.

(** [[f(x) for x in l]] when [f] may raise: left to right, the first
    exception aborts. *)
Fixpoint mapM {A B} (f : A -> result B) (l : list A) : result (list B) :=
  match l with
  | [] => Ok []
  | x :: l' =>
      bind (f x) (fun y => bind (mapM f l') (fun ys => Ok (y :: ys)))
  end.

(** ** Characters *)

Definition code (c : ascii) : Z := Z.of_nat (nat_of_ascii c).

Definition between (lo hi : Z) (c : ascii) : bool :=
  (lo <=? code c) && (code c <=? hi).

(** [str.isspace] on one character: TAB..CR, FS..US, SPACE, NEL, NBSP. *)
Definition isspace (c : ascii) : bool :=
  between 9 13 c || between 28 32 c
  || (code c =? 133) || (code c =? 160).

(** The decimal digits [0]..[9], the only ones [int] and [float] read. *)
Definition isdecimal (c : ascii) : bool := between 48 57 c.

(** [str.isdigit] on one character: the decimal digits and the
    superscripts two, three and one. *)
Definition isdigit_char (c : ascii) : bool :=
  isdecimal c || (code c =? 178) || (code c =? 179) || (code c =? 185).

Definition digit_val (c : ascii) : Z := code c - 48.

(** ** [str] methods *)

Definition len (s : string) : Z := Z.of_nat (String.length s).

Fixpoint all_chars (p : ascii -> bool) (s : string) : bool :=
  match s with
  | EmptyString => true
  | String c s' => p c && all_chars p s'
  end.

(** [s.isdigit()]: non-empty and every character a digit. *)
Definition isdigit (s : string) : bool :=
  match s with
  | EmptyString => false
  | _ => all_chars isdigit_char s
  end.

Fixpoint find_from (sub s : string) (i : Z) : Z :=
  if prefix sub s then i
  else match s with
       | EmptyString => -1
       | String _ s' => find_from sub s' (i + 1)
       end.

(** [s.find(sub)]: the lowest index of [sub] in [s], or [-1]. *)
Definition find (sub s : string) : Z := find_from sub s 0.

(** [sub in s]. *)
Fixpoint contains (sub s : string) : bool :=
  prefix sub s
  || match s with
     | EmptyString => false
     | String _ s' => contains sub s'
     end.

(** One bound of a slice, clamped as Python does. *)
Definition clamp (n : Z) (i : option Z) (dflt : Z) : Z :=
  match i with
  | None => dflt
  | Some i => if i <? 0 then Z.max (i + n) 0 else Z.min i n
  end.

(** [s[lo:hi]]; [None] is an omitted bound. *)
Definition slice (s : string) (lo hi : option Z) : string :=
  let n := len s in
  let a := clamp n lo 0 in
  let b := clamp n hi n in
  substring (Z.to_nat a) (Z.to_nat (b - a)) s.

(** The whitespace [int] and [float] remove around a number: that of
    [isspace] without FS..US. *)
Definition isblank (c : ascii) : bool :=
  between 9 13 c || (code c =? 32) || (code c =? 133) || (code c =? 160).

Fixpoint trim_left (s : string) : string :=
  match s with
  | EmptyString => EmptyString
  | String c s' => if isblank c then trim_left s' else s
  end.

Fixpoint trim_right (s : string) : string :=
  match s with
  | EmptyString => EmptyString
  | String c s' =>
      match trim_right s' with
      | EmptyString => if isblank c then EmptyString else String c EmptyString
      | r => String c r
      end
  end.

Definition trim (s : string) : string := trim_right (trim_left s).

(** [s.split()]: the maximal runs of non-whitespace characters. [cur] is
    the run being read. *)
Fixpoint split_from (cur s : string) : list string :=
  match s with
  | EmptyString =>
      match cur with EmptyString => [] | _ => [cur] end
  | String c s' =>
      if isspace c then
        match cur with
        | EmptyString => split_from EmptyString s'
        | _ => cur :: split_from EmptyString s'
        end
      else split_from (cur ++ String c EmptyString) s'
  end.

Definition split (s : string) : list string := split_from EmptyString s.

(** [s.split(sep)] for a one-character separator: empty pieces are kept,
    and the result is never empty. *)
Fixpoint split_on (sep : ascii) (s : string) : list string :=
  match s with
  | EmptyString => [EmptyString]
  | String c s' =>
      if Ascii.eqb c sep then EmptyString :: split_on sep s'
      else match split_on sep s' with
           | h :: t => String c h :: t
           | [] => [String c EmptyString]
           end
  end.

(** [s.replace(old, new)] for a non-empty [old]: one pass from the left
    over non-overlapping occurrences. [skip] counts the characters of an
    occurrence still to be dropped. *)
Fixpoint replace_from (old new : string) (skip : nat) (s : string) : string :=
  match s with
  | EmptyString => EmptyString
  | String c s' =>
      match skip with
      | S k => replace_from old new k s'
      | O =>
          if prefix old s
          then new ++ replace_from old new (String.length old - 1) s'
          else String c (replace_from old new O s')
      end
  end.

Definition replace (old new s : string) : string := replace_from old new O s.

(** ** Lists *)

(** [l[i]] with Python's negative indices. *)
Definition getitem {A} (l : list A) (i : Z) : result A :=
  let n := Z.of_nat (List.length l) in
  let j := if i <? 0 then i + n else i in
  if (j <? 0) || (n <=? j) then Raise IndexError
  else match nth_error l (Z.to_nat j) with
       | Some a => Ok a
       | None => Raise IndexError
       end.

(** ** Numbers from text *)

(** [digit (["_"] digit)*]: reads the longest such prefix of a text that
    starts with a digit, giving its value, its number of digits and the
    rest. *)
Fixpoint digits_from (acc : Z) (n : Z) (s : string) : Z * Z * string :=
  match s with
  | EmptyString => (acc, n, EmptyString)
  | String c s' =>
      if isdecimal c then digits_from (10 * acc + digit_val c) (n + 1) s'
      else if Ascii.eqb c "_" then
        match s' with
        | String d _ => if isdecimal d then digits_from acc n s' else (acc, n, s)
        | EmptyString => (acc, n, s)
        end
      else (acc, n, s)
  end.

Definition digitpart (s : string) : option (Z * Z * string) :=
  match s with
  | String c _ => if isdecimal c then Some (digits_from 0 0 s) else None
  | EmptyString => None
  end.

(** An optional sign: [true] for a minus. *)
Definition sign (s : string) : bool * string :=
  match s with
  | String "-" s' => (true, s')
  | String "+" s' => (false, s')
  | _ => (false, s)
  end.

(** [sys.get_int_max_str_digits()]: the most digits [int] converts. *)
Definition int_max_str_digits : Z := 4300.

(** [int(s)] in base ten: surrounding whitespace, an optional sign, then
    digits with single underscores between them; more digits than the
    interpreter's limit are refused. *)
Definition int (s : string) : result Z :=
  let (neg, body) := sign (trim s) in
  match digitpart body with
  | Some (v, n, EmptyString) =>
      if n <=? int_max_str_digits then Ok (if neg then - v else v)
      else Raise ValueError
  | _ => Raise ValueError
  end.

(** A Python [float], written as the decimal it was read from:
    [Finite neg m e] is the double nearest to [(-1)^neg * m * 10^e]. *)
Inductive pyfloat : Type :=
| Finite (neg : bool) (m : Z) (e : Z)
| Inf (neg : bool)
| NaN.

Definition lower (c : ascii) : ascii :=
  if between 65 90 c then ascii_of_nat (nat_of_ascii c + 32) else c.

Fixpoint lowercase (s : string) : string :=
  match s with
  | EmptyString => EmptyString
  | String c s' => String (lower c) (lowercase s')
  end.

(** [[("e"|"E") [sign] digitpart]], to the end of the text. *)
Definition exponent (s : string) : option Z :=
  match s with
  | EmptyString => Some 0
  | String c s' =>
      if Ascii.eqb (lower c) "e" then
        let (neg, body) := sign s' in
        match digitpart body with
        | Some (v, _, EmptyString) => Some (if neg then - v else v)
        | _ => None
        end
      else None
  end.

(** [[digitpart] "." digitpart | digitpart ["."]], then the exponent. *)
Definition floatnumber (neg : bool) (s : string) : result pyfloat :=
  match digitpart s with
  | Some (ip, _, String "." r) =>
      match digitpart r with
      | Some (fp, k, r') =>
          match exponent r' with
          | Some e => Ok (Finite neg (ip * 10 ^ k + fp) (e - k))
          | None => Raise ValueError
          end
      | None =>
          match exponent r with
          | Some e => Ok (Finite neg ip e)
          | None => Raise ValueError
          end
      end
  | Some (ip, _, r) =>
      match exponent r with
      | Some e => Ok (Finite neg ip e)
      | None => Raise ValueError
      end
  | None =>
      match s with
      | String "." r =>
          match digitpart r with
          | Some (fp, k, r') =>
              match exponent r' with
              | Some e => Ok (Finite neg fp (e - k))
              | None => Raise ValueError
              end
          | None => Raise ValueError
          end
      | _ => Raise ValueError
      end
  end.

(** [float(s)]: surrounding whitespace, an optional sign, then [inf],
    [infinity], [nan] in any case, or a decimal number. *)
Definition float (s : string) : result pyfloat :=
  let (neg, body) := sign (trim s) in
  let low := lowercase body in
  if String.eqb low "inf" || String.eqb low "infinity" then Ok (Inf neg)
  else if String.eqb low "nan" then Ok NaN
  else floatnumber neg body.

End Py.

Declare Scope py_scope.
Delimit Scope py_scope with py.
Notation "x <- m ;; k" := (Py.bind m (fun x => k))
  (at level 61, m at next level, right associativity) : py_scope.
Local Open Scope py_scope.

Import Py.

(** ** The objects compared in [type(x) == None] *)

Module PyObj.

(** The classes of the values a text search returns. *)
Inductive class : Type :=
| NoneType
| NavigableStringClass
| type.

(** [None], a text node, or a class object. *)
Inductive obj : Type :=
| None_
| Str (s : string)
| Class (c : class).

Definition of_option (o : option string) : obj :=
  match o with
  | Some s => Str s
  | None => None_
  end.

(** [type(x)]: always a class object. *)
Definition type_ (x : obj) : obj :=
  match x with
  | None_ => Class NoneType
  | Str _ => Class NavigableStringClass
  | Class _ => Class type
  end.

Definition class_eqb (a b : class) : bool :=
  match a, b with
  | NoneType, NoneType => true
  | NavigableStringClass, NavigableStringClass => true
  | type, type => true
  | _, _ => false
  end.

(** [x == y]: [None] equals only [None], a class only the same class. *)
Definition eq (x y : obj) : bool :=
  match x, y with
  | None_, None_ => true
  | Str s, Str t => String.eqb s t
  | Class a, Class b => class_eqb a b
  | _, _ => false
  end.

(** [str(x)]. *)
Definition str (x : obj) : string :=
  match x with
  | None_ => "None"
  | Str s => s
  | Class NoneType => "<class 'NoneType'>"
  | Class NavigableStringClass => "<class 'bs4.element.NavigableString'>"
  | Class type => "<class 'type'>"
  end.

End PyObj.

(* ================================================================== *)
(** * BeautifulSoup: the parsed tree and its searches                  *)
(* ================================================================== *)

Module Bs4.

(** A parsed document: text nodes and tags (comments and the like are
    left out). The [BeautifulSoup] object itself is the tag named
    [[document]]. Attributes are kept as written; [class] is read as a
    whitespace-separated list when searched. *)
#[warnings="-register-all"]
Inductive node : Type :=
| NavigableString (s : string)
| Tag (name : string) (attrs : list (string * string)) (contents : list node).

Definition BeautifulSoup (contents : list node) : node :=
  Tag "[document]" [] contents.

(** [tag.descendants]: every node below [n], in document order. *)
Fixpoint descendants (n : node) : list node :=
  match n with
  | NavigableString _ => []
  | Tag _ _ cs =>
      (fix each (l : list node) : list node :=
         match l with
         | [] => []
         | c :: l' => c :: descendants c ++ each l'
         end) cs
  end.

(** The text nodes below [n], in document order. *)
Definition strings (n : node) : list string :=
  flat_map (fun d => match d with
                     | NavigableString s => [s]
                     | Tag _ _ _ => []
                     end) (descendants n).

(** [n.text]: the text nodes below [n] joined. *)
Definition text (n : node) : string :=
  match n with
  | NavigableString s => s
  | Tag _ _ _ => String.concat "" (strings n)
  end.

Fixpoint lookup (key : string) (attrs : list (string * string)) : option string :=
  match attrs with
  | [] => None
  | (k, v) :: attrs' => if String.eqb k key then Some v else lookup key attrs'
  end.

(** [tag.get(key)]: the attribute or [None]. *)
Definition get (n : node) (key : string) : option string :=
  match n with
  | Tag _ a _ => lookup key a
  | NavigableString _ => None
  end.

(** [tag[key]]. *)
Definition getitem (n : node) (key : string) : result string :=
  match get n key with
  | Some v => Ok v
  | None => Raise KeyError
  end.

(** What a search asks of one attribute: [key=True] or [key="v"]. *)
Inductive want : Type :=
| IsTrue
| Is (v : string).

Definition class_ (v : string) : string * want := ("class", Is v).

(** One attribute filter against a tag's attributes, as [SoupStrainer]
    matches it. A missing attribute matches no string (until bs4 4.12 it
    matched the empty one); [class] matches when one of its words or the
    words joined by single spaces equal the value asked, so an empty
    [class] matches the empty string. *)
Definition attr_matches (attrs : list (string * string)) (kw : string * want)
  : bool :=
  let (key, w) := kw in
  match w, lookup key attrs with
  | IsTrue, Some _ => true
  | IsTrue, None => false
  | Is v, None => false
  | Is v, Some raw =>
      if String.eqb key "class" then
        let words := split raw in
        existsb (String.eqb v) words || String.eqb (String.concat " " words) v
      else String.eqb raw v
  end.

(** A search by tag name and attributes never returns a text node. *)
Definition matches (name : option string) (kws : list (string * want))
  (n : node) : bool :=
  match n with
  | NavigableString _ => false
  | Tag t attrs _ =>
      match name with
      | Some x => String.eqb t x
      | None => true
      end && forallb (attr_matches attrs) kws
  end.

(** [tag.find_all(name, **kws)]. *)
Definition find_all (name : option string) (kws : list (string * want))
  (n : node) : list node :=
  filter (matches name kws) (descendants n).

(** [tag.find(name, **kws)]: the first match or [None]. *)
Definition find (name : option string) (kws : list (string * want))
  (n : node) : option node :=
  hd_error (find_all name kws n).

(** [re.compile(pat).search(s)] for a pattern without special characters,
    as both patterns of the program are. *)
Definition re_search (pat s : string) : bool := contains pat s.

(** [tag.find(string=re.compile(pat))]: the first text node below [n]
    that the pattern finds a match in, or [None]. *)
Definition find_string (pat : string) (n : node) : option string :=
  hd_error (filter (re_search pat) (strings n)).

(** [soup.body]. *)
Definition body (soup : node) : option node := find (Some "body") [] soup.

(** [x in tag]: [x] is one of the tag's children. A text node is a [str]
    and compares by its characters, a tag never equals a [str]. *)
Definition contains_ (x : string) (n : node) : bool :=
  match n with
  | Tag _ _ cs =>
      existsb (fun c => match c with
                        | NavigableString s => String.eqb x s
                        | Tag _ _ _ => false
                        end) cs
  | NavigableString s => contains x s
  end.

End Bs4.

(* ================================================================== *)
(** * pandas: building a frame from rows                               *)
(* ================================================================== *)

Module Pd.

Record DataFrame : Type := {
  columns : list string;
  values : list (list (option string))
}.

Definition width (data : list (list string)) : nat :=
  fold_right (fun r w => Nat.max (List.length r) w) O data.

(** Short rows are filled with [None] up to the widest row. *)
Definition pad (w : nat) (r : list string) : list (option string) :=
  map Some r ++ repeat None (w - List.length r).

(** [pd.DataFrame(data=data, columns=columns)] for a list of rows: no row
    gives an empty frame; otherwise the widest row must have as many
    cells as there are column names. *)
Definition mkDataFrame (data : list (list string)) (cols : list string)
  : result DataFrame :=
  match data with
  | [] => Ok {| columns := cols; values := [] |}
  | _ =>
      if Nat.eqb (width data) (List.length cols)
      then Ok {| columns := cols; values := map (pad (width data)) data |}
      else Raise ValueError
  end.

End Pd.

(* ================================================================== *)
(** * [class Rider]                                                    *)
(* ================================================================== *)

Import Bs4.

(** A [Rider] after [__init__]: the address of the rider's page, as
    [mgt.rider_url(name)] gave it, and the parsed page. *)
Record Rider : Type := {
  url : string;
  soup : node
}.

(** The value of [general_info()['strava']]. *)
Record strava : Type := {
  link : string;
  id : string
}.

(** The value of [general_info()['ranks']]. *)
Record ranks : Type := {
  pcs : Z;
  uci : Z
}.

(** ** [get_team_history] *)

Definition team_columns : list string :=
  ["season"; "team_name"; "team_href"; "team_pcs_name"; "team_pcs_year"].

(** [team_href[5:-5]]. *)
Definition team_pcs_name (team_href : string) : string :=
  slice team_href (Some 5) (Some (-5)).

(** [team_href[-4:]]. *)
Definition team_pcs_year (team_href : string) : string :=
  slice team_href (Some (-4)) None.

(** The body of the loop over the rider's teams. *)
Definition team_row (data : list (list string)) (team : node)
  : result (list (list string)) :=
  season <- (d <- deref (find (Some "div") [class_ "season"] team);;
             Ok (text d));;
  team_name <- (a <- deref (find (Some "a") [] team);; Ok (text a));;
  team_href <- (a <- deref (find (Some "a") [("href", IsTrue)] team);;
                subscriptable (get a "href"));;
  Ok (data ++ [[season; team_name; team_href;
                team_pcs_name team_href; team_pcs_year team_href]])%list.

Definition get_team_history (self : Rider) : result Pd.DataFrame :=
  teams <- (b <- deref (body (soup self));;
            ul <- deref (find (Some "ul")
                           [class_ "list rdr-teams moblist moblist"] b);;
            Ok (find_all (Some "li") [class_ "main"] ul));;
  data <- for_each team_row teams [];;
  Pd.mkDataFrame data team_columns.

(** ** [get_race_history] *)

Definition race_columns : list string :=
  ["date"; "result"; "race_name"; "race_href"; "race_pcs_name";
   "race_pcs_year"; "classification"; "distance"; "pcs_points";
   "uci_points"].

(** The address of one page of results. *)
Definition results_url (rider_id limit : string) : string :=
  "https://www.procyclingstats.com/" ++
  "rider.php?xseason=&zxseason=&pxseason=equal&sort=date&race=&km1=&zkm1=&pkm1=equal&limit=100&" ++
  "offset=" ++ limit ++ "&topx=&ztopx=&ptopx=smallerorequal&type=&znation=&continent=&pnts=&zpnts=&ppnts=equal&level=&rnk=&zrnk=&prnk=equal&exclude_tt=0&racedate=&zracedate=&pracedate=equal&name=&pname=contains&category=&profile_score=&pprofile_score=largerorequal&filter=Filter&" ++
  "id=" ++ rider_id ++ "&p=results".

(** The body of the loop over the columns of one row. *)
Definition race_cell (race_list : list string) (jv : Z * node)
  : result (list string) :=
  let (j, val) := jv in
  if j =? 0 then Ok race_list
  else if j =? 3 then
    race_name <- (a <- deref (find (Some "a") [] val);; Ok (text a));;
    race_href <- (a <- deref (find (Some "a") [("href", IsTrue)] val);;
                  subscriptable (get a "href"));;
    race_pcs_name <- Py.getitem (split_on "/" race_href) 1;;
    race_pcs_year <- Py.getitem (split_on "/" race_href) (-2);;
    Ok (race_list ++ [race_name; race_href; race_pcs_name; race_pcs_year])%list
  else
    let text := text val in
    let text := if String.eqb text "" then "-" else text in
    Ok (race_list ++ [text])%list.

(** One row of the table: the list built from its columns. *)
Definition race_row (row : node) : result (list string) :=
  let items := find_all (Some "td") [] row in
  for_each race_cell (enumerate items) [].

(** The body of the loop over the rows of one page; [n] is
    [len(table_rows)]. *)
Definition race_rows (n : Z) (data_out : list (list string)) (ir : Z * node)
  : result (list (list string)) :=
  let (i, row) := ir in
  if i =? n - 1 then Ok data_out
  else
    race_list <- race_row row;;
    Ok (data_out ++ [race_list])%list.

Section Requests.

(** [BeautifulSoup(req.get(url).content, "html.parser")]: the parsed
    document found at an address, the same for the length of a call. The
    first request of [get_race_history] is for the address of the page at
    offset 0. *)
Variable fetch : string -> node.

(** The body of the loop over the offsets of the result pages. *)
Definition race_page (rider_id : string) (data_out : list (list string))
  (limit : node) : result (list (list string)) :=
  limit <- Bs4.getitem limit "value";;
  let results_soup := fetch (results_url rider_id limit) in
  table_rows <- (tb <- deref (find (Some "tbody") [] results_soup);;
                 Ok (find_all (Some "tr") [] tb));;
  for_each (race_rows (Z.of_nat (List.length table_rows)))
    (enumerate table_rows) data_out.

Definition get_race_history (self : Rider) : result Pd.DataFrame :=
  rider_id <- Py.getitem (split_on "/" (url self)) (-1);;
  let results_soup := fetch (results_url rider_id "0") in
  limits <- (sel <- deref (find (Some "select") [("name", Is "offset")]
                             results_soup);;
             Ok (find_all (Some "option") [] sel));;
  data_out <- for_each (race_page rider_id) limits [];;
  Pd.mkDataFrame data_out race_columns.

End Requests.

(** ** The profile fields *)

Definition get_name (self : Rider) : result string :=
  printed_name <- (t <- deref (find None [class_ "page-title"] (soup self));;
                   h <- deref (find (Some "h1") [] t);;
                   Ok (text h));;
  let printed_name :=
    if contains "  " printed_name
    then replace "  " " " printed_name
    else printed_name in
  Ok printed_name.

Definition get_nationality (self : Rider) : result string :=
  d <- deref (find (Some "div") [class_ "rdr-info-cont"] (soup self));;
  a <- deref (find (Some "a") [] d);;
  Ok (text a).

Definition get_current_team (self : Rider) : result string :=
  b <- deref (body (soup self));;
  t <- deref (find None [class_ "page-title"] b);;
  m <- deref (find None [class_ "main"] t);;
  s <- Py.getitem (find_all (Some "span") [] m) (-1);;
  Ok (text s).

Definition get_age (self : Rider) : result Z :=
  reported_age <- (b <- deref (body (soup self));;
                   d <- deref (find None [class_ "rdr-info-cont"] b);;
                   Ok (text d));;
  let reported_age_start := Py.find "(" reported_age in
  let reported_age_end := Py.find ")" reported_age in
  int (slice reported_age (Some (reported_age_start + 1))
         (Some reported_age_end)).

Definition get_height (self : Rider) : result (option pyfloat) :=
  reported_height <- (b <- deref (body (soup self));;
                      d <- deref (find None [class_ "rdr-info-cont"] b);;
                      Ok (PyObj.of_option (find_string " m" d)));;
  if PyObj.eq (PyObj.type_ reported_height) PyObj.None_ then
    Ok None
  else
    let reported_height := PyObj.str reported_height in
    h <- (tok <- Py.getitem (split reported_height) 0;; float tok);;
    Ok (Some h).

Definition get_weight (self : Rider) : result (option pyfloat) :=
  reported_weight <- (b <- deref (body (soup self));;
                      d <- deref (find None [class_ "rdr-info-cont"] b);;
                      Ok (PyObj.of_option (find_string " kg" d)));;
  if PyObj.eq (PyObj.type_ reported_weight) PyObj.None_ then
    Ok None
  else
    let reported_weight := PyObj.str reported_weight in
    w <- (l <- mapM float (filter isdigit (split reported_weight));;
          Py.getitem l 0);;
    Ok (Some w).

(** The body of the loop over the social links. *)
Definition strava_step (st : strava) (link_ : node) : result strava :=
  if contains_ "strava" link_ then
    strava_link <- subscriptable (get link_ "href");;
    last_slash_loc <-
      Py.getitem
        (map fst (filter (fun ix => Ascii.eqb (snd ix) "/")
                    (enumerate (list_ascii_of_string strava_link))))
        (-1);;
    let strava_id := slice strava_link (Some (last_slash_loc + 1)) None in
    Ok {| link := strava_link; id := strava_id |}
  else Ok st.

Definition get_strava (self : Rider) : result strava :=
  links <- (b <- deref (body (soup self));;
            l <- deref (find None [class_ "list horizontal sites"] b);;
            Ok (find_all (Some "a") [class_ ""; ("href", IsTrue)] l));;
  for_each strava_step links {| link := ""; id := "" |}.

(** The body of the loop over the rank elements; the state holds
    [pcs_rank] and [uci_rank], unset before their assignment. *)
Definition ranks_step (st : option Z * option Z) (il : Z * node)
  : result (option Z * option Z) :=
  let (i, link_) := il in
  if i =? 0 then
    pcs_rank <- int (text link_);; Ok (Some pcs_rank, snd st)
  else if i =? 1 then
    uci_rank <- int (text link_);; Ok (fst st, Some uci_rank)
  else Ok st.

(** Reading a local variable. *)
Definition local {A} (v : option A) : result A :=
  match v with
  | Some a => Ok a
  | None => Raise UnboundLocalError
  end.

Definition get_ranks (self : Rider) : result ranks :=
  links <- (b <- deref (body (soup self));;
            l <- deref (find (Some "ul")
                          [class_ "list horizontal rdr-rankings"] b);;
            Ok (find_all (Some "div") [class_ "rnk"] l));;
  st <- for_each ranks_step (enumerate links) (None, None);;
  pcs_rank <- local (fst st);;
  uci_rank <- local (snd st);;
  Ok {| pcs := pcs_rank; uci := uci_rank |}.

(* ================================================================== *)
(** * What the extractors read                                         *)
(* ================================================================== *)

(** The text of the heading [get_name] reads, when the page has one. *)
Definition title_text (self : Rider) : option string :=
  match find None [class_ "page-title"] (soup self) with
  | Some t =>
      match find (Some "h1") [] t with
      | Some h => Some (text h)
      | None => None
      end
  | None => None
  end.

(** The element [get_age], [get_height] and [get_weight] read, when the
    page has one. *)
Definition info_cont (self : Rider) : option node :=
  match body (soup self) with
  | Some b => find None [class_ "rdr-info-cont"] b
  | None => None
  end.

(** The anchors [get_strava] loops over, when the page has the list. *)
Definition social_links (self : Rider) : option (list node) :=
  match body (soup self) with
  | Some b =>
      match find None [class_ "list horizontal sites"] b with
      | Some l => Some (find_all (Some "a") [class_ ""; ("href", IsTrue)] l)
      | None => None
      end
  | None => None
  end.

(** The elements [get_ranks] loops over, when the page has the list. *)
Definition rank_elements (self : Rider) : option (list node) :=
  match body (soup self) with
  | Some b =>
      match find (Some "ul") [class_ "list horizontal rdr-rankings"] b with
      | Some l => Some (find_all (Some "div") [class_ "rnk"] l)
      | None => None
      end
  | None => None
  end.

(** The rows of the table body of a page. *)
Definition table_rows (page : node) : result (list node) :=
  tb <- deref (find (Some "tbody") [] page);;
  Ok (find_all (Some "tr") [] tb).

(** The options of the offset selector of a page. *)
Definition offsets (page : node) : result (list node) :=
  sel <- deref (find (Some "select") [("name", Is "offset")] page);;
  Ok (find_all (Some "option") [] sel).

Section PageRecords.

Variable fetch : string -> node.
Variable rider_id : string.

(** The lists one result page gives: those of its rows but the last. *)
Definition page_records (limit : node) : result (list (list string)) :=
  v <- Bs4.getitem limit "value";;
  rows <- table_rows (fetch (results_url rider_id v));;
  mapM race_row (removelast rows).

End PageRecords.

(** ** Texts *)

(** The space. *)
Definition sp : ascii := " "%char.

(** A text of one or more decimal digits. *)
Definition whole (s : string) : bool :=
  match s with
  | EmptyString => false
  | _ => all_chars isdecimal s
  end.

(** The digits of [s] read after those that gave [acc]. *)
Fixpoint decimal_from (acc : Z) (s : string) : Z :=
  match s with
  | EmptyString => acc
  | String c s' => decimal_from (10 * acc + digit_val c) s'
  end.

(** The number a text of decimal digits writes. *)
Definition whole_value (s : string) : Z := decimal_from 0 s.

(** The text between the first "(" and the first ")" of [t], when both
    are there in that order. *)
Definition group (t : string) : option string :=
  let s := Py.find "(" t in
  let e := Py.find ")" t in
  if (0 <=? s) && (s <? e) then Some (slice t (Some (s + 1)) (Some e))
  else None.

(** The text has a parenthesised group of digits only. *)
Definition has_digit_group (t : string) : bool :=
  match group t with
  | Some g => whole g
  | None => false
  end.

(** What is stored for the text of a plain cell. *)
Definition stored (t : string) : string :=
  if String.eqb t "" then "-" else t.

(* ================================================================== *)
(** * Sample pages                                                     *)
(* ================================================================== *)

(** A page whose title heading holds the text [t]. *)
Definition title_page (t : string) : Rider :=
  {| url := "rider/john-doe";
     soup := BeautifulSoup
               [Tag "html" []
                  [Tag "body" []
                     [Tag "div" [("class", "page-title")]
                        [Tag "h1" [] [NavigableString t]]]]] |}.

(** A page with one team of the given season, name and link. *)
Definition team_page (season name href : string) : Rider :=
  {| url := "rider/john-doe";
     soup := BeautifulSoup
               [Tag "html" []
                  [Tag "body" []
                     [Tag "ul" [("class", "list rdr-teams moblist moblist")]
                        [Tag "li" [("class", "main")]
                           [Tag "div" [("class", "season")]
                              [NavigableString season];
                            Tag "div" [("class", "name")]
                              [Tag "a" [("href", href)]
                                 [NavigableString name]]]]]]] |}.

(** A page whose info block has the given content. *)
Definition info_page (content : list node) : Rider :=
  {| url := "rider/john-doe";
     soup := BeautifulSoup
               [Tag "html" []
                  [Tag "body" []
                     [Tag "div" [("class", "rdr-info-cont")] content]]] |}.

(** The info block of a rider whose height and weight are not given. *)
Definition no_height_weight : list node :=
  [Tag "b" [] [NavigableString "Date of birth:"];
   NavigableString " 1st January 1995 (28)";
   Tag "br" [] [];
   Tag "b" [] [NavigableString "Nationality:"];
   NavigableString " ";
   Tag "a" [("href", "nation/belgium")] [NavigableString "Belgium"]].

(** The info block of a rider of the given weight text and a height. *)
Definition weight_block (w : string) : list node :=
  [Tag "b" [] [NavigableString "Weight:"];
   NavigableString w;
   Tag "b" [] [NavigableString "Height:"];
   NavigableString " 1.85 m"].


(** A page whose list of sites has the given entries. *)
Definition sites_page (entries : list node) : Rider :=
  {| url := "rider/john-doe";
     soup := BeautifulSoup
               [Tag "html" []
                  [Tag "body" []
                     [Tag "ul" [("class", "list horizontal sites")] entries]]] |}.

(** A page whose list of rankings has the given rank texts. *)
Definition ranks_page (rnks : list string) : Rider :=
  {| url := "rider/john-doe";
     soup := BeautifulSoup
               [Tag "html" []
                  [Tag "body" []
                     [Tag "ul" [("class", "list horizontal rdr-rankings")]
                        (map (fun s =>
                                Tag "li" []
                                  [Tag "div" [("class", "title")]
                                     [NavigableString "Ranking"];
                                   Tag "div" [("class", "rnk")]
                                     [NavigableString s]]) rnks)]]] |}.

(** A row of eight cells: number, date, result, race, class, distance and
    the two point counts, here with no distance and no points. *)
Definition sample_row (date : string) : node :=
  Tag "tr" []
    [Tag "td" [] [NavigableString "1"];
     Tag "td" [] [NavigableString date];
     Tag "td" [] [NavigableString "3"];
     Tag "td" [] [Tag "a" [("href", "race/tour-de-france/2023/stage-1")]
                    [NavigableString "Tour de France"]];
     Tag "td" [] [NavigableString "2.UWT"];
     Tag "td" [] [];
     Tag "td" [] [];
     Tag "td" [] []].

Definition sample_record (date : string) : list string :=
  [date; "3"; "Tour de France"; "race/tour-de-france/2023/stage-1";
   "tour-de-france"; "2023"; "2.UWT"; "-"; "-"; "-"].

(** Two pages of results: three rows at offset 0, two at offset 100. *)
Definition results_page (dates : list string) : node :=
  BeautifulSoup
    [Tag "html" []
       [Tag "body" []
          [Tag "select" [("name", "offset")]
             [Tag "option" [("value", "0")] [NavigableString "1-100"];
              Tag "option" [("value", "100")] [NavigableString "101-200"]];
           Tag "table" []
             [Tag "tbody" [] (map sample_row dates)]]]].

Definition sample_fetch (address : string) : node :=
  if String.eqb address (results_url "john-doe" "100")
  then results_page ["2022-04-03"; "2022-03-19"]
  else results_page ["2023-07-02"; "2023-07-01"; "2022-04-10"].

(* ================================================================== *)
(** * The whole profile                                                *)
(* ================================================================== *)

(** The dictionary [general_info] returns, one field for each key. *)
Module Out.

Record t : Type := {
  name : string;
  team : string;
  age : Z;
  nationality : string;
  weight : option pyfloat;
  height : option pyfloat;
  strava : strava;
  ranks : ranks
}.

End Out.

Definition general_info (self : Rider) : result Out.t :=
  name <- get_name self;;
  current_team <- get_current_team self;;
  age <- get_age self;;
  nationality <- get_nationality self;;
  weight <- get_weight self;;
  height <- get_height self;;
  strava <- get_strava self;;
  ranks <- get_ranks self;;
  Ok {| Out.name := name;
        Out.team := current_team;
        Out.age := age;
        Out.nationality := nationality;
        Out.weight := weight;
        Out.height := height;
        Out.strava := strava;
        Out.ranks := ranks |}.

(** The address [get_race_history] asks first, to find the offsets. *)
Definition first_results_url (rider_id : string) : string :=
  "https://www.procyclingstats.com/" ++
  "rider.php?xseason=&zxseason=&pxseason=equal&sort=date&race=&km1=&zkm1=&pkm1=equal&" ++
  "limit=100&offset=0&topx=&ztopx=&ptopx=smallerorequal&type=&znation=&continent=&pnts=" ++
  "&zpnts=&ppnts=equal&level=&rnk=&zrnk=&prnk=equal&exclude_tt=0&racedate=&zracedate=&pracedate=equal" ++
  "&name=&pname=contains&category=&profile_score=&pprofile_score=largerorequal&filter=Filter&id=" ++ rider_id ++ "&p=results".

(* ================================================================== *)
(** * More of what the extractors read                                 *)
(* ================================================================== *)

(** The entries [get_team_history] loops over, when the page has the
    list. *)
Definition team_entries (self : Rider) : option (list node) :=
  match body (soup self) with
  | Some b =>
      match find (Some "ul") [class_ "list rdr-teams moblist moblist"] b with
      | Some ul => Some (find_all (Some "li") [class_ "main"] ul)
      | None => None
      end
  | None => None
  end.

(** The spans [get_current_team] takes the last of, when the page has the
    title block. *)
Definition team_spans (self : Rider) : option (list node) :=
  match body (soup self) with
  | Some b =>
      match find None [class_ "page-title"] b with
      | Some t =>
          match find None [class_ "main"] t with
          | Some m => Some (find_all (Some "span") [] m)
          | None => None
          end
      | None => None
      end
  | None => None
  end.

(** The cells of a row of the results table. *)
Definition cells (row : node) : list node := find_all (Some "td") [] row.

(** The character [c] does not occur in [s]. *)
Definition without (c : ascii) (s : string) : bool :=
  all_chars (fun x => negb (Ascii.eqb x c)) s.

(** The characters of [s] that are not spaces. *)
Fixpoint letters (s : string) : string :=
  match s with
  | EmptyString => EmptyString
  | String c s' => if Ascii.eqb c sp then letters s' else String c (letters s')
  end.

(** An anchor the loop of [get_strava] passes without an exception: one
    that has no child "strava", or whose address has a slash. *)
Definition passes (a : node) : bool :=
  negb (contains_ "strava" a)
  || match get a "href" with
     | Some h => negb (without "/" h)
     | None => false
     end.

(** The positions of the slashes of [s], counted from [k]: the list
    [get_strava] takes the last element of. *)
Definition slash_positions (k : Z) (s : string) : list Z :=
  map fst (filter (fun ix => Ascii.eqb (snd ix) "/")
             (enumerate_from k (list_ascii_of_string s))).

(* ================================================================== *)
(** * More sample pages                                                *)
(* ================================================================== *)

(** One entry of the list of sites whose anchor has an empty class, as
    the search of [get_strava] asks. *)
Definition plain_site (href label : string) : node :=
  Tag "li" [] [Tag "a" [("class", ""); ("href", href)] [NavigableString label]].

(** The superscript two: a digit for [str.isdigit] that [float] does not
    read. *)
Definition superscript_two : string := String "178"%char EmptyString.

(** A page of results with the given offsets in its selector and the
    given rows in its table body. *)
Definition page_of (values : list string) (rows : list node) : node :=
  BeautifulSoup
    [Tag "html" []
       [Tag "body" []
          [Tag "select" [("name", "offset")]
             (map (fun v => Tag "option" [("value", v)] []) values);
           Tag "table" [] [Tag "tbody" [] rows]]]].

(** Two pages of results, the second with a table body without rows. *)
Definition fetch_empty_page (address : string) : node :=
  if String.eqb address (results_url "john-doe" "100")
  then page_of ["0"; "100"] []
  else page_of ["0"; "100"]
         (map sample_row ["2023-07-02"; "2023-07-01"; "2022-04-10"]).

(** Two pages of results whose selector lists the offset 100 first. *)
Definition fetch_descending (address : string) : node :=
  if String.eqb address (results_url "john-doe" "100")
  then page_of ["100"; "0"] (map sample_row ["2022-04-03"; "2022-03-19"])
  else page_of ["100"; "0"]
         (map sample_row ["2023-07-02"; "2023-07-01"; "2022-04-10"]).

(** The rider of the sample pages of results. *)
Definition john_doe : Rider :=
  {| url := "https://www.procyclingstats.com/rider/john-doe";
     soup := BeautifulSoup [] |}.

(** A page with the title block at the top of the document and no
    [body]. *)
Definition bodiless_page : Rider :=
  {| url := "rider/john-doe";
     soup := BeautifulSoup
               [Tag "div" [("class", "page-title")]
                  [Tag "h1" [] [NavigableString "John Doe"]]] |}.

(** A full profile page. *)
Definition profile (info sites : list node) : Rider :=
  {| url := "rider/john-doe";
     soup := BeautifulSoup
               [Tag "html" []
                  [Tag "body" []
                     [Tag "div" [("class", "page-title")]
                        [Tag "div" [("class", "main")]
                           [Tag "h1" [] [NavigableString "John  Doe"];
                            Tag "span" [("class", "flag be")] [];
                            Tag "span" [] [NavigableString "Example Team"]]];
                      Tag "div" [("class", "rdr-info-cont")] info;
                      Tag "ul" [("class", "list horizontal sites")] sites;
                      Tag "ul" [("class", "list horizontal rdr-rankings")]
                        [Tag "li" [] [Tag "div" [("class", "rnk")]
                                        [NavigableString "12"]];
                         Tag "li" [] [Tag "div" [("class", "rnk")]
                                        [NavigableString "7"]]]]]] |}.

(** The info block of a rider with all the fields. *)
Definition full_info : list node :=
  [Tag "b" [] [NavigableString "Date of birth:"];
   NavigableString " 1st January 1995 (28)";
   Tag "br" [] [];
   Tag "b" [] [NavigableString "Nationality:"];
   NavigableString " ";
   Tag "a" [("href", "nation/belgium")] [NavigableString "Belgium"];
   Tag "br" [] [];
   Tag "b" [] [NavigableString "Weight:"];
   NavigableString " 68 kg";
   Tag "b" [] [NavigableString "Height:"];
   NavigableString " 1.85 m"].

(** A row of nine cells, one more than the table has. *)
Definition wide_row : node :=
  Tag "tr" []
    [Tag "td" [] [NavigableString "1"];
     Tag "td" [] [NavigableString "2023-07-01"];
     Tag "td" [] [NavigableString "3"];
     Tag "td" [] [Tag "a" [("href", "race/tour-de-france/2023/stage-1")]
                    [NavigableString "Tour de France"]];
     Tag "td" [] [NavigableString "2.UWT"];
     Tag "td" [] [];
     Tag "td" [] [];
     Tag "td" [] [];
     Tag "td" [] []].

(* ================================================================== *)
(** * Properties                                                       *)
(* ================================================================== *)

(** ** The error monad *)

Lemma bind_Ok {A B} (m : result A) (k : A -> result B) (b : B) :
  Py.bind m k = Ok b -> exists a, m = Ok a /\ k a = Ok b.
Proof.
  destruct m as [a | e]; simpl; intros H; [now exists a | discriminate].
Qed.

(** ** Strings *)

Lemma two_step_ind (P : string -> Prop) :
  P EmptyString ->
  (forall c, P (String c EmptyString)) ->
  (forall c d s, P s -> P (String d s) -> P (String c (String d s))) ->
  forall s, P s.
Proof.
  intros H0 H1 H2 s.
  assert (H : P s /\ forall c, P (String c s)).
  { induction s as [| d s [IHs IHc]].
    - split; [exact H0 | exact H1].
    - split; [apply IHc | intros c; apply H2; [exact IHs | apply IHc]]. }
  exact (proj1 H).
Qed.

Lemma prefix_nil (s : string) : prefix EmptyString s = true.
Proof. now destruct s. Qed.

Lemma prefix_cons (a c : ascii) (s1 s2 : string) :
  prefix (String a s1) (String c s2) = Ascii.eqb a c && prefix s1 s2.
Proof.
  cbn [prefix]. destruct (ascii_dec a c) as [E | E].
  - subst c. now rewrite Ascii.eqb_refl.
  - apply Ascii.eqb_neq in E. now rewrite E.
Qed.

Lemma prefix_sp (c : ascii) (s : string) :
  prefix " " (String c s) = Ascii.eqb sp c.
Proof. unfold sp. rewrite prefix_cons, prefix_nil. apply andb_true_r. Qed.

Lemma prefix_sp2 (c d : ascii) (s : string) :
  prefix "  " (String c (String d s)) = Ascii.eqb sp c && Ascii.eqb sp d.
Proof. now rewrite prefix_cons, prefix_sp. Qed.

Lemma prefix_sp3 (c d e : ascii) (s : string) :
  prefix "   " (String c (String d (String e s)))
  = Ascii.eqb sp c && (Ascii.eqb sp d && Ascii.eqb sp e).
Proof. now rewrite prefix_cons, prefix_sp2. Qed.

(** One step of the replacement of double spaces. *)
Lemma replace_sp_pair (s : string) :
  replace "  " " " (String sp (String sp s)) = String sp (replace "  " " " s).
Proof.
  unfold replace. cbn [replace_from]. rewrite prefix_sp2.
  unfold sp. rewrite Ascii.eqb_refl. reflexivity.
Qed.

Lemma replace_sp_other (c : ascii) (s : string) :
  prefix "  " (String c s) = false ->
  replace "  " " " (String c s) = String c (replace "  " " " s).
Proof.
  intros H. unfold replace. cbn [replace_from]. now rewrite H.
Qed.

Lemma prefix_replace_sp : forall s,
  prefix " " (replace "  " " " s) = prefix " " s.
Proof.
  induction s as [| c | c d s IHs IHd] using two_step_ind.
  - reflexivity.
  - rewrite replace_sp_other; [now rewrite !prefix_sp |].
    rewrite prefix_cons. apply andb_false_r.
  - destruct (prefix "  " (String c (String d s))) eqn:E.
    + rewrite prefix_sp2 in E. apply andb_prop in E as [Ec Ed].
      apply Ascii.eqb_eq in Ec, Ed. subst c d.
      rewrite replace_sp_pair. now rewrite !prefix_sp.
    + rewrite (replace_sp_other _ _ E). now rewrite !prefix_sp.
Qed.

(** Where the text has no run of three spaces, one pass leaves no double
    space. *)
Lemma replace_sp_no_double : forall s,
  contains "   " s = false -> contains "  " (replace "  " " " s) = false.
Proof.
  induction s as [| c | c d s IHs IHd] using two_step_ind; intros H.
  - reflexivity.
  - rewrite replace_sp_other by (rewrite prefix_cons; apply andb_false_r).
    cbn [contains replace replace_from]. rewrite prefix_cons.
    now rewrite andb_false_r.
  - cbn [contains] in H. apply orb_false_iff in H as [H3 Hd].
    destruct (prefix "  " (String c (String d s))) eqn:E.
    + pose proof E as E'. rewrite prefix_sp2 in E'.
      apply andb_prop in E' as [Ec Ed].
      apply Ascii.eqb_eq in Ec, Ed. subst c d.
      rewrite replace_sp_pair. cbn [contains].
      apply orb_false_iff in Hd as [_ Hs].
      rewrite (IHs Hs), orb_false_r.
      destruct (replace "  " " " s) as [| e r] eqn:R.
      * reflexivity.
      * rewrite prefix_sp2.
        assert (P : prefix " " (String e r) = prefix " " s)
          by (rewrite <- R; apply prefix_replace_sp).
        rewrite prefix_sp in P. rewrite P.
        destruct s as [| e' s']; [reflexivity |].
        rewrite prefix_sp3 in H3. rewrite prefix_sp.
        unfold sp in *. rewrite !Ascii.eqb_refl in *. exact H3.
    + rewrite (replace_sp_other _ _ E). cbn [contains].
      rewrite (IHd Hd), orb_false_r.
      destruct (replace "  " " " (String d s)) as [| e r] eqn:R.
      * rewrite prefix_cons. apply andb_false_r.
      * rewrite prefix_sp2.
        assert (P : prefix " " (String e r) = prefix " " (String d s))
          by (rewrite <- R; apply prefix_replace_sp).
        rewrite !prefix_sp in P. rewrite P.
        now rewrite prefix_sp2 in E.
Qed.

(** Where there is no double space the replacement changes nothing. *)
Lemma replace_sp_absent : forall s,
  contains "  " s = false -> replace "  " " " s = s.
Proof.
  induction s as [| c s IH]; intros H.
  - reflexivity.
  - cbn [contains] in H. apply orb_false_iff in H as [Hp Hs].
    rewrite (replace_sp_other _ _ Hp). now rewrite (IH Hs).
Qed.

(** ** The rider's name *)

Lemma get_name_replace (self : Rider) (t : string) :
  title_text self = Some t -> get_name self = Ok (replace "  " " " t).
Proof.
  unfold title_text, get_name. intros H.
  destruct (find None [class_ "page-title"] (soup self)) as [tb |];
    [| discriminate].
  cbn [deref Py.bind].
  destruct (find (Some "h1") [] tb) as [h |]; [| discriminate].
  injection H as H. cbn [deref Py.bind]. rewrite H.
  destruct (contains "  " t) eqn:E; [reflexivity |].
  now rewrite (replace_sp_absent _ E).
Qed.

(** C9, the claim as stated fails: a title with three spaces in a row
    keeps two of them. *)
Lemma get_name_triple_space :
  get_name (title_page "John   Doe") = Ok "John  Doe"
  /\ contains "  " "John  Doe" = true.
Proof. split; reflexivity. Qed.

(** C9, amended: [get_name] returns the title text after one pass that
    replaces each double space met from the left by a single space; the
    result has no two consecutive spaces when the title has no three
    consecutive spaces, and the title "John  Doe" gives "John Doe". *)
Theorem get_name_one_pass (self : Rider) (t : string) :
  title_text self = Some t ->
  get_name self = Ok (replace "  " " " t)
  /\ (contains "   " t = false ->
      exists r, get_name self = Ok r /\ contains "  " r = false)
  /\ (t = "John  Doe" -> get_name self = Ok "John Doe").
Proof.
  intros H. pose proof (get_name_replace self t H) as G.
  split; [exact G | split].
  - intros H3. exists (replace "  " " " t).
    split; [exact G | now apply replace_sp_no_double].
  - intros ->. exact G.
Qed.

Lemma get_name_one_pass_witness :
  title_text (title_page "John  Doe") = Some "John  Doe"
  /\ get_name (title_page "John  Doe") = Ok "John Doe".
Proof.
  split; [reflexivity |].
  apply (get_name_one_pass (title_page "John  Doe") "John  Doe");
    reflexivity.
Defined.

(** ** The team identifiers *)

(** C4, the claim as stated fails: the five characters removed from the
    front of "/team/example-team-2023" are "/team", and the slash before
    the name stays. *)
Lemma team_pcs_name_leading_slash :
  team_pcs_name "/team/example-team-2023" <> "example-team".
Proof. discriminate. Qed.

(** C4, amended: for the link "/team/example-team-2023" the identifier is
    "/example-team" and the year "2023"; the identifier "example-team"
    is that of the link "team/example-team-2023", and [get_team_history]
    stores both values in its row. *)
Theorem team_pcs_name_example :
  team_pcs_name "/team/example-team-2023" = "/example-team"
  /\ team_pcs_year "/team/example-team-2023" = "2023"
  /\ team_pcs_name "team/example-team-2023" = "example-team"
  /\ team_pcs_year "team/example-team-2023" = "2023"
  /\ get_team_history (team_page "2023" "Example Team" "/team/example-team-2023")
     = Ok {| Pd.columns := team_columns;
             Pd.values := [[Some "2023"; Some "Example Team";
                            Some "/team/example-team-2023";
                            Some "/example-team"; Some "2023"]] |}.
Proof. repeat split. Qed.

(** ** Whole numbers in text *)

Ltac by_char c :=
  destruct c as [[] [] [] [] [] [] [] []]; try discriminate; try reflexivity.

Lemma isdecimal_not_blank (c : ascii) : isdecimal c = true -> isblank c = false.
Proof. by_char c. Qed.

Lemma isdecimal_sign (c : ascii) (s : string) :
  isdecimal c = true -> sign (String c s) = (false, String c s).
Proof. by_char c. Qed.

Lemma isdecimal_lower (c : ascii) : isdecimal c = true -> lower c = c.
Proof. by_char c. Qed.

Lemma isdecimal_not_letter (c : ascii) :
  isdecimal c = true -> Ascii.eqb c "i" = false /\ Ascii.eqb c "n" = false.
Proof. by_char c; intros _; split; reflexivity. Qed.

Lemma trim_right_no_blank : forall s,
  all_chars (fun c => negb (isblank c)) s = true -> trim_right s = s.
Proof.
  induction s as [| c s IH]; intros H; [reflexivity |].
  cbn [all_chars] in H. apply andb_prop in H as [Hc Hs].
  cbn [trim_right]. rewrite (IH Hs).
  destruct s; [| reflexivity].
  apply negb_true_iff in Hc. now rewrite Hc.
Qed.

Lemma all_chars_impl (p q : ascii -> bool) :
  (forall c, p c = true -> q c = true) ->
  forall s, all_chars p s = true -> all_chars q s = true.
Proof.
  intros I. induction s as [| c s IH]; intros H; [reflexivity |].
  cbn [all_chars] in *. apply andb_prop in H as [Hc Hs].
  now rewrite (I c Hc), (IH Hs).
Qed.

Lemma whole_trim (s : string) : whole s = true -> trim s = s.
Proof.
  intros H. destruct s as [| c s]; [discriminate |].
  cbn [whole] in H. unfold trim.
  assert (L : trim_left (String c s) = String c s).
  { cbn [all_chars] in H. apply andb_prop in H as [Hc _].
    cbn [trim_left]. now rewrite (isdecimal_not_blank c Hc). }
  rewrite L. apply trim_right_no_blank.
  revert H. apply all_chars_impl.
  intros d Hd. now rewrite (isdecimal_not_blank d Hd).
Qed.

Lemma digits_from_decimal : forall s acc n,
  all_chars isdecimal s = true ->
  digits_from acc n s = (decimal_from acc s, n + len s, EmptyString).
Proof.
  induction s as [| c s IH]; intros acc n H.
  - cbn. now rewrite Z.add_0_r.
  - cbn [all_chars] in H. apply andb_prop in H as [Hc Hs].
    cbn [digits_from decimal_from]. rewrite Hc, (IH _ _ Hs).
    f_equal. f_equal. unfold len. cbn [String.length]. lia.
Qed.

Lemma digitpart_whole (s : string) :
  whole s = true ->
  digitpart s = Some (whole_value s, len s, EmptyString).
Proof.
  intros H. destruct s as [| c s]; [discriminate |].
  cbn [whole] in H. unfold digitpart.
  pose proof H as H'. cbn [all_chars] in H'. apply andb_prop in H' as [Hc _].
  rewrite Hc. now rewrite (digits_from_decimal _ 0 0 H).
Qed.

(** [int] on a text of decimal digits: the number it writes, up to the
    limit on the number of digits. *)
Lemma int_digits (s : string) :
  whole s = true ->
  int s = if len s <=? int_max_str_digits then Ok (whole_value s)
          else Raise ValueError.
Proof.
  intros H. unfold int. rewrite (whole_trim s H).
  pose proof (digitpart_whole s H) as D.
  destruct s as [| c s]; [discriminate |].
  assert (Hc : isdecimal c = true)
    by (cbn [whole all_chars] in H; now apply andb_prop in H).
  rewrite (isdecimal_sign c s Hc). now rewrite D.
Qed.

(** [int] reads a text of decimal digits, no more than the limit, as the
    number it writes. *)
Lemma int_whole (s : string) :
  whole s = true ->
  len s <= int_max_str_digits ->
  int s = Ok (whole_value s).
Proof.
  intros H L. rewrite (int_digits s H).
  apply Z.leb_le in L. now rewrite L.
Qed.

(** [int] refuses a text of more digits than the limit. *)
Lemma int_too_long (s : string) :
  whole s = true ->
  int_max_str_digits < len s ->
  int s = Raise ValueError.
Proof.
  intros H L. rewrite (int_digits s H).
  apply Z.leb_gt in L. now rewrite L.
Qed.

(** [float] reads a text of decimal digits as that whole number. *)
Lemma float_whole (s : string) :
  whole s = true -> float s = Ok (Finite false (whole_value s) 0).
Proof.
  intros H. unfold float. rewrite (whole_trim s H).
  pose proof (digitpart_whole s H) as D.
  destruct s as [| c s]; [discriminate |].
  assert (Hc : isdecimal c = true)
    by (cbn [whole all_chars] in H; now apply andb_prop in H).
  rewrite (isdecimal_sign c s Hc).
  cbn [lowercase String.eqb]. rewrite (isdecimal_lower c Hc).
  destruct (isdecimal_not_letter c Hc) as [Hi Hn]. rewrite Hi, Hn.
  cbn [orb]. unfold floatnumber. now rewrite D.
Qed.

(** A digit token in the sense of [str.isdigit] has no other character;
    in particular no decimal point. *)
Lemma isdigit_no_point (s : string) :
  isdigit s = true -> contains "." s = false.
Proof.
  intros H. assert (A : all_chars isdigit_char s = true)
    by (destruct s; [discriminate | exact H]).
  clear H. induction s as [| c s IH]; [reflexivity |].
  cbn [all_chars] in A. apply andb_prop in A as [Hc Hs].
  cbn [contains]. rewrite (IH Hs), orb_false_r.
  rewrite prefix_cons. replace (Ascii.eqb "." c) with false; [reflexivity |].
  revert Hc. by_char c.
Qed.

(** ** The info block: age, height, weight *)

Lemma get_age_info (self : Rider) (d : node) :
  info_cont self = Some d ->
  get_age self
  = int (slice (text d) (Some (Py.find "(" (text d) + 1))
           (Some (Py.find ")" (text d)))).
Proof.
  unfold info_cont, get_age. intros H.
  destruct (body (soup self)) as [b |]; [| discriminate].
  cbn [deref Py.bind]. now rewrite H.
Qed.

(** [type(x)] is a class, and no class equals [None]. *)
Lemma type_is_never_None (x : PyObj.obj) :
  PyObj.eq (PyObj.type_ x) PyObj.None_ = false.
Proof. now destruct x. Qed.

Lemma get_height_info (self : Rider) (d : node) :
  info_cont self = Some d ->
  get_height self
  = (h <- (tok <- Py.getitem
                    (split (PyObj.str (PyObj.of_option (find_string " m" d)))) 0;;
           float tok);;
     Ok (Some h)).
Proof.
  unfold info_cont, get_height. intros H.
  destruct (body (soup self)) as [b |]; [| discriminate].
  cbn [deref Py.bind]. rewrite H. cbn [deref Py.bind].
  now rewrite type_is_never_None.
Qed.

Lemma get_weight_info (self : Rider) (d : node) :
  info_cont self = Some d ->
  get_weight self
  = (w <- (l <- mapM float
                  (filter isdigit
                     (split (PyObj.str (PyObj.of_option (find_string " kg" d)))));;
           Py.getitem l 0);;
     Ok (Some w)).
Proof.
  unfold info_cont, get_weight. intros H.
  destruct (body (soup self)) as [b |]; [| discriminate].
  cbn [deref Py.bind]. rewrite H. cbn [deref Py.bind].
  now rewrite type_is_never_None.
Qed.

(** Neither method ever takes its [None] branch. *)
Lemma get_height_never_None (self : Rider) : get_height self <> Ok None.
Proof.
  unfold get_height.
  destruct (body (soup self)) as [b |]; [| discriminate].
  cbn [deref Py.bind].
  destruct (find None [class_ "rdr-info-cont"] b) as [d |]; [| discriminate].
  cbn [deref Py.bind]. rewrite type_is_never_None.
  destruct (Py.getitem _ 0) as [tok | e]; [| discriminate].
  cbn [Py.bind]. destruct (float tok); discriminate.
Qed.

Lemma get_weight_never_None (self : Rider) : get_weight self <> Ok None.
Proof.
  unfold get_weight.
  destruct (body (soup self)) as [b |]; [| discriminate].
  cbn [deref Py.bind].
  destruct (find None [class_ "rdr-info-cont"] b) as [d |]; [| discriminate].
  cbn [deref Py.bind]. rewrite type_is_never_None.
  destruct (mapM float _) as [l | e]; [| discriminate].
  cbn [Py.bind]. destruct (Py.getitem l 0); discriminate.
Qed.

(** C1: where the info block has no text with " m", [get_height] raises
    [ValueError] (from [float("None")]), and where it has no text with
    " kg", [get_weight] raises [IndexError] (no digit token in "None");
    on no page does either return [None]. *)
Theorem get_height_weight_absent (self : Rider) (d : node) :
  info_cont self = Some d ->
  (find_string " m" d = None -> get_height self = Raise ValueError)
  /\ (find_string " kg" d = None -> get_weight self = Raise IndexError)
  /\ get_height self <> Ok None
  /\ get_weight self <> Ok None.
Proof.
  intros H. repeat split.
  - intros N. rewrite (get_height_info self d H), N. reflexivity.
  - intros N. rewrite (get_weight_info self d H), N. reflexivity.
  - apply get_height_never_None.
  - apply get_weight_never_None.
Qed.

Lemma get_height_weight_absent_witness :
  find_string " m" (Tag "div" [("class", "rdr-info-cont")] no_height_weight) = None
  /\ find_string " kg" (Tag "div" [("class", "rdr-info-cont")] no_height_weight) = None
  /\ get_height (info_page no_height_weight) = Raise ValueError
  /\ get_weight (info_page no_height_weight) = Raise IndexError.
Proof.
  pose proof (get_height_weight_absent (info_page no_height_weight)
                (Tag "div" [("class", "rdr-info-cont")] no_height_weight)
                eq_refl) as [Hh [Hw _]].
  split; [reflexivity | split; [reflexivity | split]].
  - apply Hh. reflexivity.
  - apply Hw. reflexivity.
Defined.

(** C2, the claim as stated fails: [get_age] returns an integer for a
    group with spaces around the digits, and for a text with no "(" at
    all. *)
Lemma get_age_without_digit_group :
  (get_age (info_page [NavigableString "( 28 )"]) = Ok 28
   /\ has_digit_group "( 28 )" = false)
  /\ (get_age (info_page [NavigableString "28) years"]) = Ok 28
      /\ has_digit_group "28) years" = false).
Proof. repeat split. Qed.

Lemma int_raises_ValueError (s : string) (e : exn) :
  int s = Raise e -> e = ValueError.
Proof.
  unfold int. destruct (sign (trim s)) as [neg body_].
  destruct (digitpart body_) as [[[v n] [| c r]] |];
    try destruct (n <=? int_max_str_digits); intros H;
    try discriminate; now injection H.
Qed.

Lemma group_slice (t g : string) :
  group t = Some g ->
  slice t (Some (Py.find "(" t + 1)) (Some (Py.find ")" t)) = g.
Proof.
  unfold group.
  destruct ((0 <=? Py.find "(" t) && (Py.find "(" t <? Py.find ")" t));
    [| discriminate].
  now intros [= <-].
Qed.

(** C2, amended: [get_age] returns an integer whenever the text between
    the first "(" and the first ")" of the info block is one or more
    digits, no more than the 4300 that [int] converts (with more it
    raises [ValueError]); in general it returns what [int] reads from the
    slice [text[find("(")+1 : find(")")]] (so also with spaces, a sign,
    or a missing parenthesis), and where [int] rejects that slice the
    call raises [ValueError]: it never returns a default. *)
Theorem get_age_digit_group (self : Rider) (d : node) :
  info_cont self = Some d ->
  (forall g, group (text d) = Some g -> whole g = true ->
             len g <= int_max_str_digits ->
             get_age self = Ok (whole_value g))
  /\ (forall g, group (text d) = Some g -> whole g = true ->
                int_max_str_digits < len g ->
                get_age self = Raise ValueError)
  /\ get_age self
     = int (slice (text d) (Some (Py.find "(" (text d) + 1))
              (Some (Py.find ")" (text d))))
  /\ (forall e, get_age self = Raise e -> e = ValueError).
Proof.
  intros H. pose proof (get_age_info self d H) as A.
  split; [| split; [| split]].
  - intros g G W L. rewrite A, (group_slice _ g G). now apply int_whole.
  - intros g G W L. rewrite A, (group_slice _ g G). now apply int_too_long.
  - exact A.
  - intros e E. rewrite A in E. now apply int_raises_ValueError in E.
Qed.

Lemma get_age_digit_group_witness :
  get_age (info_page no_height_weight) = Ok 28.
Proof.
  pose proof (get_age_digit_group (info_page no_height_weight)
                (Tag "div" [("class", "rdr-info-cont")] no_height_weight)
                eq_refl) as [G _].
  apply (G "28"); [reflexivity | reflexivity | discriminate].
Defined.

Lemma mapM_float_whole : forall l,
  forallb whole l = true ->
  mapM float l = Ok (map (fun s => Finite false (whole_value s) 0) l).
Proof.
  induction l as [| s l IH]; intros H; [reflexivity |].
  cbn [forallb] in H. apply andb_prop in H as [Hs Hl].
  cbn [mapM map]. now rewrite (float_whole s Hs), (IH Hl).
Qed.

Lemma float_raises_ValueError (s : string) (e : exn) :
  float s = Raise e -> e = ValueError.
Proof.
  unfold float, floatnumber. intros H.
  repeat match type of H with
         | context [match ?x with _ => _ end] => destruct x
         | context [if ?x then _ else _] => destruct x
         end;
    try discriminate; now injection H.
Qed.

(** One token that [float] does not read makes the whole list fail. *)
Lemma mapM_float_fails (tok : string) : forall l,
  In tok l -> is_ok (float tok) = false -> mapM float l = Raise ValueError.
Proof.
  induction l as [| x l IH]; intros I N; [contradiction |].
  cbn [mapM]. destruct (float x) as [y | e] eqn:E.
  - destruct I as [-> | I]; [rewrite E in N; discriminate |].
    cbn [Py.bind]. now rewrite (IH I N).
  - cbn [Py.bind]. now rewrite (float_raises_ValueError x e E).
Qed.

(** C5, the claim as stated fails: after "68 kg" a superscript two, a
    digit for [str.isdigit] that [float] does not read, makes
    [get_weight] raise [ValueError], though the first digit token of the
    text is "68". *)
Lemma get_weight_superscript_digit :
  contains " kg" ("68 kg " ++ superscript_two) = true
  /\ filter isdigit (split ("68 kg " ++ superscript_two))
     = ["68"; superscript_two]
  /\ get_weight (info_page [NavigableString ("68 kg " ++ superscript_two)])
     = Raise ValueError.
Proof. repeat split. Qed.

(** C5, amended: where the info block has a text with " kg" whose digit
    tokens are all decimal whole numbers, [get_weight] returns the first
    of them read as a float; "68 kg" gives 68.0; a token with a decimal
    point is never a digit token, and "68.5 kg" raises [IndexError];
    a digit token that [float] does not read, anywhere in the text,
    makes the call raise [ValueError]. *)
Theorem get_weight_whole_token (self : Rider) (d : node) (s : string) :
  info_cont self = Some d ->
  find_string " kg" d = Some s ->
  (forall tok toks,
      filter isdigit (split s) = tok :: toks ->
      forallb whole (tok :: toks) = true ->
      get_weight self = Ok (Some (Finite false (whole_value tok) 0)))
  /\ (s = "68 kg" -> get_weight self = Ok (Some (Finite false 68 0)))
  /\ (forall tok, contains "." tok = true ->
                  ~ In tok (filter isdigit (split s)))
  /\ (s = "68.5 kg" -> get_weight self = Raise IndexError)
  /\ (forall tok, In tok (filter isdigit (split s)) ->
                  is_ok (float tok) = false ->
                  get_weight self = Raise ValueError).
Proof.
  intros H F. pose proof (get_weight_info self d H) as W.
  rewrite F in W. cbn [PyObj.of_option PyObj.str] in W.
  split; [| split; [| split; [| split]]].
  - intros tok toks T A. rewrite W, T, (mapM_float_whole _ A). reflexivity.
  - intros ->. rewrite W. reflexivity.
  - intros tok P I. apply filter_In in I as [_ I].
    apply isdigit_no_point in I. congruence.
  - intros ->. rewrite W. reflexivity.
  - intros tok I N. rewrite W, (mapM_float_fails tok _ I N). reflexivity.
Qed.

Lemma get_weight_whole_token_witness :
  get_weight (info_page (weight_block " 68 kg"))
  = Ok (Some (Finite false 68 0)).
Proof.
  pose proof (get_weight_whole_token (info_page (weight_block " 68 kg"))
                (Tag "div" [("class", "rdr-info-cont")] (weight_block " 68 kg"))
                " 68 kg" eq_refl eq_refl) as [G _].
  apply (G "68" []); reflexivity.
Defined.

(** ** The strava reference *)

Lemma get_strava_links (self : Rider) (links : list node) :
  social_links self = Some links ->
  get_strava self = for_each strava_step links {| link := ""; id := "" |}.
Proof.
  unfold social_links, get_strava. intros H.
  destruct (body (soup self)) as [b |]; [| discriminate].
  cbn [deref Py.bind].
  destruct (find None [class_ "list horizontal sites"] b) as [l |];
    [| discriminate].
  cbn [deref Py.bind]. now injection H as ->.
Qed.

Lemma strava_skip : forall links st,
  forallb (fun a => negb (contains_ "strava" a)) links = true ->
  for_each strava_step links st = Ok st.
Proof.
  induction links as [| a links IH]; intros st H; [reflexivity |].
  cbn [forallb] in H. apply andb_prop in H as [Ha Hl].
  apply negb_true_iff in Ha.
  cbn [for_each]. unfold strava_step at 1. rewrite Ha.
  cbn [Py.bind]. now apply IH.
Qed.



(** Where the anchor has an empty class and its only child is the text
    "strava", the address and its last segment are returned; the same
    anchor with the child "Strava" is passed over. *)
Example get_strava_exact_child :
  get_strava
    (sites_page [plain_site "https://www.strava.com/athletes/123456" "strava"])
  = Ok {| link := "https://www.strava.com/athletes/123456"; id := "123456" |}
  /\ get_strava
       (sites_page [plain_site "https://www.strava.com/athletes/123456" "Strava"])
     = Ok {| link := ""; id := "" |}.
Proof. split; reflexivity. Qed.

(** ** The ranks *)

Lemma get_ranks_links (self : Rider) (links : list node) :
  rank_elements self = Some links ->
  get_ranks self
  = (st <- for_each ranks_step (enumerate links) (None, None);;
     pcs_rank <- local (fst st);;
     uci_rank <- local (snd st);;
     Ok {| pcs := pcs_rank; uci := uci_rank |}).
Proof.
  unfold rank_elements, get_ranks. intros H.
  destruct (body (soup self)) as [b |]; [| discriminate].
  cbn [deref Py.bind].
  destruct (find (Some "ul") [class_ "list horizontal rdr-rankings"] b)
    as [l |]; [| discriminate].
  cbn [deref Py.bind]. now injection H as ->.
Qed.

(** From the third element on the loop changes nothing. *)
Lemma ranks_step_later : forall links i st,
  2 <= i -> for_each ranks_step (enumerate_from i links) st = Ok st.
Proof.
  induction links as [| a links IH]; intros i st H; [reflexivity |].
  cbn [enumerate_from for_each]. unfold ranks_step at 1.
  replace (i =? 0) with false by (symmetry; apply Z.eqb_neq; lia).
  replace (i =? 1) with false by (symmetry; apply Z.eqb_neq; lia).
  cbn [Py.bind]. apply IH. lia.
Qed.

Lemma ranks_loop_two (a1 a2 : node) (rest : list node) :
  for_each ranks_step (enumerate (a1 :: a2 :: rest)) (None, None)
  = (p <- int (text a1);; u <- int (text a2);; Ok (Some p, Some u)).
Proof.
  unfold enumerate. cbn [enumerate_from for_each]. unfold ranks_step at 1.
  cbn [Z.eqb]. destruct (int (text a1)) as [p | e]; [| reflexivity].
  cbn [Py.bind snd]. unfold ranks_step at 1. cbn [Z.add Z.eqb Pos.eqb].
  destruct (int (text a2)) as [u | e]; [| reflexivity].
  cbn [Py.bind fst]. apply ranks_step_later. lia.
Qed.

(** C8: where the rankings list has at least two rank elements, the
    first two with integer text, [get_ranks] returns the first as [pcs]
    and the second as [uci]. *)
Theorem get_ranks_first_two (self : Rider) (a1 a2 : node) (rest : list node)
  (p u : Z) :
  rank_elements self = Some (a1 :: a2 :: rest) ->
  int (text a1) = Ok p ->
  int (text a2) = Ok u ->
  get_ranks self = Ok {| pcs := p; uci := u |}.
Proof.
  intros H P U.
  rewrite (get_ranks_links self _ H), ranks_loop_two, P, U. reflexivity.
Qed.

Lemma get_ranks_first_two_witness :
  get_ranks (ranks_page ["12"; "7"]) = Ok {| pcs := 12; uci := 7 |}.
Proof.
  apply (get_ranks_first_two (ranks_page ["12"; "7"])
           (Tag "div" [("class", "rnk")] [NavigableString "12"])
           (Tag "div" [("class", "rnk")] [NavigableString "7"]) []);
    reflexivity.
Defined.

(** C10: with more than two rank elements [get_ranks] does not raise
    when the first two have integer text, whatever the others hold, and
    its result is that of a page with the first two elements alone. *)
Theorem get_ranks_ignores_rest (self two : Rider) (a1 a2 : node)
  (rest : list node) (p u : Z) :
  rank_elements self = Some (a1 :: a2 :: rest) ->
  rank_elements two = Some [a1; a2] ->
  int (text a1) = Ok p ->
  int (text a2) = Ok u ->
  is_ok (get_ranks self) = true /\ get_ranks self = get_ranks two.
Proof.
  intros H H2 P U.
  rewrite (get_ranks_links self _ H), (get_ranks_links two _ H2).
  rewrite !ranks_loop_two, P, U. split; reflexivity.
Qed.

Lemma get_ranks_ignores_rest_witness :
  is_ok (get_ranks (ranks_page ["12"; "7"; "n/a"; "3"])) = true
  /\ get_ranks (ranks_page ["12"; "7"; "n/a"; "3"])
     = get_ranks (ranks_page ["12"; "7"]).
Proof.
  apply (get_ranks_ignores_rest
           (ranks_page ["12"; "7"; "n/a"; "3"]) (ranks_page ["12"; "7"])
           (Tag "div" [("class", "rnk")] [NavigableString "12"])
           (Tag "div" [("class", "rnk")] [NavigableString "7"])
           [Tag "div" [("class", "rnk")] [NavigableString "n/a"];
            Tag "div" [("class", "rnk")] [NavigableString "3"]] 12 7);
    reflexivity.
Defined.

(** ** The rows of the results table *)

Local Open Scope list_scope.

Lemma stored_not_empty (t : string) : stored t <> "".
Proof.
  unfold stored. destruct (String.eqb t "") eqn:E; [discriminate |].
  now apply String.eqb_neq in E.
Qed.

Lemma race_cell_plain (acc : list string) (j : Z) (val : node) :
  j <> 0 -> j <> 3 ->
  race_cell acc (j, val) = Ok (acc ++ [stored (text val)]).
Proof.
  intros H0 H3. unfold race_cell.
  apply Z.eqb_neq in H0, H3. now rewrite H0, H3.
Qed.

Lemma race_cell_race (acc l : list string) (val : node) :
  race_cell acc (3, val) = Ok l ->
  exists a b c d, l = acc ++ [a; b; c; d].
Proof.
  unfold race_cell. cbn [Z.eqb Pos.eqb].
  intros H.
  apply bind_Ok in H as [a [_ H]].
  apply bind_Ok in H as [b [_ H]].
  apply bind_Ok in H as [c [_ H]].
  apply bind_Ok in H as [d [_ H]].
  injection H as <-. now exists a, b, c, d.
Qed.

(** After the race column every cell adds one field. *)
Lemma race_cells_later : forall items i acc,
  4 <= i ->
  for_each race_cell (enumerate_from i items) acc
  = Ok (acc ++ map (fun v => stored (text v)) items).
Proof.
  induction items as [| v items IH]; intros i acc H.
  - cbn. now rewrite app_nil_r.
  - cbn [enumerate_from for_each map].
    rewrite race_cell_plain by lia. cbn [Py.bind].
    rewrite IH by lia. now rewrite <- app_assoc.
Qed.

(** C7: in the list built from a row, the cell of every column but the
    first (the row number) and the fourth (the race) is stored as its
    text, or as "-" when its text is empty; it is never stored as
    the empty text. Column [j] is field [j - 1] before the race column and
    field [j + 2] after it. *)
Theorem race_row_plain_cell (row : node) (race_list : list string)
  (j : nat) (val : node) :
  race_row row = Ok race_list ->
  nth_error (find_all (Some "td") [] row) j = Some val ->
  j <> 0%nat ->
  j <> 3%nat ->
  nth_error race_list (if (j <? 3)%nat then j - 1 else j + 2)%nat
  = Some (if String.eqb (text val) "" then "-" else text val)
  /\ (if String.eqb (text val) "" then "-" else text val) <> ""
  /\ (text val <> "" ->
      nth_error race_list (if (j <? 3)%nat then j - 1 else j + 2)%nat
      = Some (text val)).
Proof.
  intros R N H0 H3.
  assert (M : nth_error race_list (if (j <? 3)%nat then j - 1 else j + 2)%nat
              = Some (stored (text val))).
  { unfold race_row, enumerate in R.
    destruct (find_all (Some "td") [] row) as [| c0 [| c1 [| c2 [| c3 tl]]]].
    - now destruct j.
    - destruct j as [| [| j]]; easy.
    - destruct j as [| [| [| j]]]; try easy.
      injection N as ->. cbn in R. now injection R as <-.
    - destruct j as [| [| [| [| j]]]]; try easy.
      all: injection N as ->; cbn in R; now injection R as <-.
    - cbn [enumerate_from for_each Z.add Pos.add] in R.
      change (race_cell [] (0, c0)) with (Ok (@nil string)) in R.
      cbn [Py.bind] in R.
      rewrite (race_cell_plain [] 1 c1) in R by lia. cbn [Py.bind app] in R.
      rewrite (race_cell_plain _ 2 c2) in R by lia. cbn [Py.bind app] in R.
      apply bind_Ok in R as [l3 [R3 R]].
      apply race_cell_race in R3 as [a [b [c [d ->]]]].
      rewrite race_cells_later in R by lia. injection R as <-.
      cbn [app].
      destruct j as [| [| [| [| j]]]]; try easy.
      + now injection N as ->.
      + now injection N as ->.
      + cbn [nth_error] in N.
        replace (S (S (S (S j))) + 2)%nat with (6 + j)%nat by lia.
        cbn [Nat.ltb Nat.leb Nat.add nth_error].
        now rewrite nth_error_map, N. }
  split; [exact M | split; [apply stored_not_empty |]].
  intros T. rewrite M. unfold stored.
  apply String.eqb_neq in T. now rewrite T.
Qed.

Lemma race_row_plain_cell_witness :
  race_row (sample_row "2023-07-01") = Ok (sample_record "2023-07-01")
  /\ nth_error (sample_record "2023-07-01") 7 = Some "-".
Proof.
  split; [reflexivity |].
  apply (race_row_plain_cell (sample_row "2023-07-01") _ 5 (Tag "td" [] []));
    try reflexivity; discriminate.
Defined.

(** ** The pages of results *)

Lemma bind_bind {A B C} (m : result A) (f : A -> result B) (g : B -> result C) :
  Py.bind (Py.bind m f) g = Py.bind m (fun a => Py.bind (f a) g).
Proof. now destruct m. Qed.

Lemma mapM_length {A B} (f : A -> result B) : forall l ys,
  mapM f l = Ok ys -> List.length ys = List.length l.
Proof.
  induction l as [| x l IH]; intros ys H.
  - now injection H as <-.
  - cbn [mapM] in H. apply bind_Ok in H as [y [_ H]].
    apply bind_Ok in H as [ys' [H' H]]. injection H as <-.
    cbn [List.length]. now rewrite (IH ys' H').
Qed.

Lemma mapM_compose {A B C} (f : A -> result B) (g : B -> result C) :
  forall l ys zs,
    mapM f l = Ok ys -> mapM g ys = Ok zs ->
    mapM (fun x => Py.bind (f x) g) l = Ok zs.
Proof.
  induction l as [| x l IH]; intros ys zs F G.
  - injection F as <-. exact G.
  - cbn [mapM] in F. apply bind_Ok in F as [y [Fy F]].
    apply bind_Ok in F as [ys' [F' F]]. injection F as <-.
    cbn [mapM] in G. apply bind_Ok in G as [z [Gz G]].
    apply bind_Ok in G as [zs' [G' G]]. injection G as <-.
    cbn [mapM]. rewrite Fy. cbn [Py.bind]. rewrite Gz. cbn [Py.bind].
    now rewrite (IH ys' zs' F' G').
Qed.

(** The loop over the rows of a page adds the list of every row but the
    last one, in order. *)
Lemma race_rows_loop : forall rows n i acc,
  n = i + Z.of_nat (List.length rows) ->
  for_each (race_rows n) (enumerate_from i rows) acc
  = (rs <- mapM race_row (removelast rows);; Ok (acc ++ rs)).
Proof.
  induction rows as [| r rows IH]; intros n i acc N.
  - cbn. now rewrite app_nil_r.
  - cbn [enumerate_from for_each]. unfold race_rows at 1.
    destruct rows as [| r' rows].
    + replace (i =? n - 1) with true
        by (symmetry; apply Z.eqb_eq; cbn in N; lia).
      cbn. now rewrite app_nil_r.
    + replace (i =? n - 1) with false
        by (symmetry; apply Z.eqb_neq; cbn [List.length] in N; lia).
      change (removelast (r :: r' :: rows)) with (r :: removelast (r' :: rows)).
      cbn [mapM]. rewrite !bind_bind.
      destruct (race_row r) as [rl | e]; [| reflexivity].
      cbn [Py.bind]. rewrite (IH n (i + 1) (acc ++ [rl])).
      * rewrite !bind_bind.
        destruct (mapM race_row (removelast (r' :: rows))) as [rs | e];
          [| reflexivity].
        cbn [Py.bind]. now rewrite <- app_assoc.
      * cbn [List.length] in *. lia.
Qed.

Section Pages.

Variable fetch : string -> node.
Variable rider_id : string.

Lemma race_page_records (acc : list (list string)) (limit : node) :
  race_page fetch rider_id acc limit
  = (rs <- page_records fetch rider_id limit;; Ok (acc ++ rs)).
Proof.
  unfold race_page, page_records, table_rows.
  destruct (Bs4.getitem limit "value") as [v | e]; [| reflexivity].
  cbn [Py.bind].
  destruct (find (Some "tbody") [] (fetch (results_url rider_id v)))
    as [tb |]; [| reflexivity].
  cbn [deref Py.bind]. unfold enumerate. apply race_rows_loop. lia.
Qed.

Lemma race_pages_loop : forall limits acc,
  for_each (race_page fetch rider_id) limits acc
  = (rss <- mapM (page_records fetch rider_id) limits;;
     Ok (acc ++ concat rss)).
Proof.
  induction limits as [| limit limits IH]; intros acc.
  - cbn. now rewrite app_nil_r.
  - cbn [for_each mapM]. rewrite race_page_records, !bind_bind.
    destruct (page_records fetch rider_id limit) as [rs | e];
      [| reflexivity].
    cbn [Py.bind]. rewrite IH, !bind_bind.
    destruct (mapM (page_records fetch rider_id) limits) as [rss | e];
      [| reflexivity].
    cbn [Py.bind concat]. now rewrite app_assoc.
Qed.

End Pages.

(** [get_race_history] as a map over the pages. *)
Lemma get_race_history_pages (fetch : string -> node) (self : Rider) :
  get_race_history fetch self
  = (rider_id <- Py.getitem (split_on "/" (url self)) (-1);;
     limits <- offsets (fetch (results_url rider_id "0"));;
     rss <- mapM (page_records fetch rider_id) limits;;
     Pd.mkDataFrame (concat rss) race_columns).
Proof.
  unfold get_race_history, offsets.
  destruct (Py.getitem (split_on "/" (url self)) (-1)) as [rid | e];
    [| reflexivity].
  cbn [Py.bind].
  destruct (find (Some "select") [("name", Is "offset")]
              (fetch (results_url rid "0"))) as [sel |]; [| reflexivity].
  cbn [deref Py.bind]. rewrite race_pages_loop, bind_bind.
  destruct (mapM (page_records fetch rid) _) as [rss | e]; reflexivity.
Qed.

(** A frame of rows that all have as many cells as there are columns. *)
Lemma mkDataFrame_full (data : list (list string)) (cols : list string) :
  Forall (fun r => List.length r = List.length cols) data ->
  Pd.mkDataFrame data cols
  = Ok {| Pd.columns := cols; Pd.values := map (map Some) data |}.
Proof.
  intros F. unfold Pd.mkDataFrame.
  destruct data as [| r data]; [reflexivity |].
  assert (W : Pd.width (r :: data) = List.length cols).
  { clear - F. remember (r :: data) as l eqn:E.
    assert (NE : l <> []) by (subst; discriminate). clear E.
    induction F as [| x l Hx F IH]; [easy |].
    cbn [Pd.width fold_right]. destruct l as [| y l].
    - cbn. lia.
    - change (fold_right _ O (y :: l)) with (Pd.width (y :: l)).
      rewrite IH by discriminate. lia. }
  rewrite W, Nat.eqb_refl. f_equal. f_equal.
  apply map_ext_in. intros x I. unfold Pd.pad.
  rewrite Forall_forall in F. rewrite (F x I), Nat.sub_diag.
  apply app_nil_r.
Qed.

Lemma length_removelast {A} : forall l : list A,
  List.length (removelast l) = (List.length l - 1)%nat.
Proof.
  induction l as [| x l IH]; [reflexivity |].
  destruct l as [| y l]; [reflexivity |].
  change (removelast (x :: y :: l)) with (x :: removelast (y :: l)).
  cbn [List.length] in *. rewrite IH. lia.
Qed.

(** The lists of all pages are as many as the rows but the last ones. *)
Lemma records_count : forall pages records,
  mapM (fun rows => mapM race_row (removelast rows)) pages = Ok records ->
  List.length (concat records)
  = list_sum (map (fun rows => (List.length rows - 1)%nat) pages).
Proof.
  induction pages as [| rows pages IH]; intros records M.
  - now injection M as <-.
  - cbn [mapM] in M. apply bind_Ok in M as [rs [R M]].
    apply bind_Ok in M as [rss [M' M]]. injection M as <-.
    cbn [concat map list_sum fold_right]. rewrite length_app.
    now rewrite (IH rss M'), (mapM_length _ _ _ R), length_removelast.
Qed.

(** With a row on every page, the count is the sum of the row counts
    less one each, as integers. *)
Lemma rows_less_one : forall pages : list (list node),
  Forall (fun rows => rows <> []) pages ->
  Z.of_nat (list_sum (map (fun rows => (List.length rows - 1)%nat) pages))
  = fold_right Z.add 0
      (map (fun rows => Z.of_nat (List.length rows) - 1) pages).
Proof.
  induction 1 as [| rows pages Hr _ IH]; [reflexivity |].
  cbn [map list_sum fold_right]. rewrite Nat2Z.inj_add.
  change (fold_right Nat.add O ?l) with (list_sum l).
  rewrite IH. f_equal.
  destruct rows as [| r rows]; [easy |]. cbn [List.length]. lia.
Qed.

Lemma mapM_ext {A B} (f g : A -> result B) :
  (forall x, f x = g x) -> forall l, mapM f l = mapM g l.
Proof.
  intros E. induction l as [| x l IH]; [reflexivity |].
  cbn [mapM]. now rewrite E, IH.
Qed.

(** The count of the lists, a page without rows counting for none. *)
Lemma rows_less_one_max : forall pages : list (list node),
  Z.of_nat (list_sum (map (fun rows => (List.length rows - 1)%nat) pages))
  = fold_right Z.add 0
      (map (fun rows => Z.max 0 (Z.of_nat (List.length rows) - 1)) pages).
Proof.
  induction pages as [| rows pages IH]; [reflexivity |].
  cbn [map list_sum fold_right]. rewrite Nat2Z.inj_add.
  change (fold_right Nat.add O ?l) with (list_sum l).
  rewrite IH. f_equal. lia.
Qed.

(** C3, the claim as stated fails. A page whose table body has no row
    gives no record, not one fewer: with three rows on the first page and
    none on the second there are 2 records, where the sum of the row
    counts less one is 1. And the pages come in the order of the options
    of the selector, here the offset 100 before the offset 0. *)
Lemma get_race_history_empty_page :
  (table_rows (fetch_empty_page (results_url "john-doe" "0"))
   = Ok (map sample_row ["2023-07-02"; "2023-07-01"; "2022-04-10"])
   /\ table_rows (fetch_empty_page (results_url "john-doe" "100")) = Ok []
   /\ get_race_history fetch_empty_page john_doe
      = Ok {| Pd.columns := race_columns;
              Pd.values := map (map Some)
                             [sample_record "2023-07-02";
                              sample_record "2023-07-01"] |}
   /\ fold_right Z.add 0
        (map (fun rows => Z.of_nat (List.length rows) - 1)
           [map sample_row ["2023-07-02"; "2023-07-01"; "2022-04-10"]; []])
      = 1)
  /\ get_race_history fetch_descending john_doe
     = Ok {| Pd.columns := race_columns;
             Pd.values := map (map Some)
                            [sample_record "2022-04-03";
                             sample_record "2023-07-02";
                             sample_record "2023-07-01"] |}.
Proof. repeat split. Qed.

(** C3, amended: with every page fetched and read without error and ten
    fields in the list of each row, [get_race_history] returns a frame of
    the lists of every row but the last of each page, pages in the order
    in which the selector lists the offsets and rows in document order;
    their number is the sum over the pages of the row count less one,
    counted as none for a page without rows, which is the sum of the row
    counts less one when every page has a row. *)
Theorem get_race_history_records (fetch : string -> node) (self : Rider)
  (rider_id : string) (limits : list node) (pages : list (list node))
  (records : list (list (list string))) :
  Py.getitem (split_on "/" (url self)) (-1) = Ok rider_id ->
  offsets (fetch (results_url rider_id "0")) = Ok limits ->
  mapM (fun limit => v <- Bs4.getitem limit "value";;
                     table_rows (fetch (results_url rider_id v))) limits
  = Ok pages ->
  mapM (fun rows => mapM race_row (removelast rows)) pages = Ok records ->
  Forall (fun r => List.length r = 10%nat) (concat records) ->
  exists frame,
    get_race_history fetch self = Ok frame
    /\ Pd.values frame = map (map Some) (concat records)
    /\ Z.of_nat (List.length (Pd.values frame))
       = fold_right Z.add 0
           (map (fun rows => Z.max 0 (Z.of_nat (List.length rows) - 1))
              pages)
    /\ (Forall (fun rows => rows <> []) pages ->
        Z.of_nat (List.length (Pd.values frame))
        = fold_right Z.add 0
            (map (fun rows => Z.of_nat (List.length rows) - 1) pages)).
Proof.
  intros I O P R W.
  exists {| Pd.columns := race_columns;
            Pd.values := map (map Some) (concat records) |}.
  assert (C : List.length (map (map Some) (concat records))
              = list_sum (map (fun rows => (List.length rows - 1)%nat) pages))
    by (rewrite length_map; now apply records_count).
  split; [| split; [| split]].
  - rewrite get_race_history_pages, I. cbn [Py.bind]. rewrite O.
    cbn [Py.bind].
    assert (M : mapM (page_records fetch rider_id) limits = Ok records).
    { rewrite <- (mapM_compose _ _ _ _ _ P R). apply mapM_ext.
      intros l. unfold page_records. symmetry. apply bind_bind. }
    rewrite M. cbn [Py.bind]. now apply mkDataFrame_full.
  - reflexivity.
  - cbn [Pd.values]. rewrite C. apply rows_less_one_max.
  - intros NE. cbn [Pd.values]. rewrite C. now apply rows_less_one.
Qed.

Lemma get_race_history_records_witness :
  exists frame,
    get_race_history sample_fetch
      {| url := "https://www.procyclingstats.com/rider/john-doe";
         soup := BeautifulSoup [] |} = Ok frame
    /\ Pd.values frame
       = map (map Some)
           [sample_record "2023-07-02"; sample_record "2023-07-01";
            sample_record "2022-04-03"]
    /\ Z.of_nat (List.length (Pd.values frame)) = (3 - 1) + (2 - 1).
Proof.
  destruct (get_race_history_records sample_fetch
              {| url := "https://www.procyclingstats.com/rider/john-doe";
                 soup := BeautifulSoup [] |}
              "john-doe"
              [Tag "option" [("value", "0")] [NavigableString "1-100"];
               Tag "option" [("value", "100")] [NavigableString "101-200"]]
              [map sample_row ["2023-07-02"; "2023-07-01"; "2022-04-10"];
               map sample_row ["2022-04-03"; "2022-03-19"]]
              [[sample_record "2023-07-02"; sample_record "2023-07-01"];
               [sample_record "2022-04-03"]]
              eq_refl eq_refl eq_refl eq_refl)
    as [frame [G [V [_ N]]]].
  - repeat constructor.
  - exists frame. split; [exact G | split; [exact V |]].
    apply N. repeat constructor; discriminate.
Defined.

(* ================================================================== *)
(** * Further properties                                               *)
(* ================================================================== *)

(** ** Lists and loops *)

Lemma getitem_last {A} (l : list A) (x : A) :
  Py.getitem (l ++ [x]) (-1) = Ok x.
Proof.
  unfold Py.getitem. rewrite length_app. cbn [List.length Z.ltb Z.compare].
  replace (-1 + Z.of_nat (List.length l + 1)) with (Z.of_nat (List.length l))
    by lia.
  replace (Z.of_nat (List.length l) <? 0) with false
    by (symmetry; apply Z.ltb_ge; lia).
  replace (Z.of_nat (List.length l + 1) <=? Z.of_nat (List.length l))
    with false by (symmetry; apply Z.leb_gt; lia).
  cbn [orb]. rewrite Nat2Z.id, nth_error_app2 by lia.
  now rewrite Nat.sub_diag.
Qed.

Lemma getitem_nil {A} (i : Z) : Py.getitem (@nil A) i = Raise IndexError.
Proof.
  unfold Py.getitem. cbn [List.length Z.of_nat].
  destruct (i <? 0) eqn:E.
  - replace (i + 0 <? 0) with true by (symmetry; apply Z.ltb_lt; lia).
    reflexivity.
  - replace (0 <=? i) with true
      by (symmetry; apply Z.leb_le; apply Z.ltb_ge in E; lia).
    now rewrite orb_true_r.
Qed.

Lemma for_each_app {A S} (body : S -> A -> result S) (l1 l2 : list A) (s : S) :
  for_each body (l1 ++ l2) s = Py.bind (for_each body l1 s) (for_each body l2).
Proof.
  revert s. induction l1 as [| x l1 IH]; intros s; [reflexivity |].
  cbn [app for_each]. destruct (body s x) as [s' | e]; [apply IH | reflexivity].
Qed.

(** ** Pages without a body or an info block *)

Lemma get_name_raises (self : Rider) (e : exn) :
  get_name self = Raise e -> e = AttributeError.
Proof.
  unfold get_name.
  destruct (find None [class_ "page-title"] (soup self)) as [t |];
    cbn [deref Py.bind]; [| now intros [= <-]].
  destruct (find (Some "h1") [] t) as [h |]; cbn [deref Py.bind];
    [discriminate | now intros [= <-]].
Qed.

Lemma get_weight_no_info (self : Rider) :
  info_cont self = None -> get_weight self = Raise AttributeError.
Proof.
  unfold info_cont, get_weight. intros H.
  destruct (body (soup self)) as [b |]; [| reflexivity].
  cbn [deref Py.bind]. now rewrite H.
Qed.

Lemma get_height_no_info (self : Rider) :
  info_cont self = None -> get_height self = Raise AttributeError.
Proof.
  unfold info_cont, get_height. intros H.
  destruct (body (soup self)) as [b |]; [| reflexivity].
  cbn [deref Py.bind]. now rewrite H.
Qed.

Lemma get_weight_Ok (self : Rider) (w : option pyfloat) :
  get_weight self = Ok w ->
  exists d s x, info_cont self = Some d /\ find_string " kg" d = Some s
                /\ w = Some x.
Proof.
  intros H. destruct (info_cont self) as [d |] eqn:I.
  - destruct (find_string " kg" d) as [s |] eqn:F.
    + destruct w as [x |]; [now exists d, s, x |].
      now apply get_weight_never_None in H.
    + rewrite (get_weight_info self d I), F in H. discriminate.
  - rewrite (get_weight_no_info self I) in H. discriminate.
Qed.

Lemma get_height_Ok (self : Rider) (h : option pyfloat) :
  get_height self = Ok h ->
  exists d s x, info_cont self = Some d /\ find_string " m" d = Some s
                /\ h = Some x.
Proof.
  intros H. destruct (info_cont self) as [d |] eqn:I.
  - destruct (find_string " m" d) as [s |] eqn:F.
    + destruct h as [x |]; [now exists d, s, x |].
      now apply get_height_never_None in H.
    + rewrite (get_height_info self d I), F in H. discriminate.
  - rewrite (get_height_no_info self I) in H. discriminate.
Qed.

(** X1: [general_info] returns a profile only for a page whose info
    block has a text with " kg" and a text with " m"; the profile then
    holds a weight and a height, never [None]. *)
Theorem general_info_has_weight_height (self : Rider) (out : Out.t) :
  general_info self = Ok out ->
  exists d skg sm w h,
    info_cont self = Some d
    /\ find_string " kg" d = Some skg
    /\ find_string " m" d = Some sm
    /\ Out.weight out = Some w
    /\ Out.height out = Some h.
Proof.
  unfold general_info. intros H.
  apply bind_Ok in H as [n [_ H]].
  apply bind_Ok in H as [t [_ H]].
  apply bind_Ok in H as [a [_ H]].
  apply bind_Ok in H as [na [_ H]].
  apply bind_Ok in H as [w [W H]].
  apply bind_Ok in H as [h [Hh H]].
  apply bind_Ok in H as [s [_ H]].
  apply bind_Ok in H as [r [_ H]].
  injection H as <-. cbn [Out.weight Out.height].
  apply get_weight_Ok in W as [d [skg [x [I [K ->]]]]].
  apply get_height_Ok in Hh as [d' [sm [y [I' [M ->]]]]].
  rewrite I in I'. injection I' as <-.
  now exists d, skg, sm, x, y.
Qed.

Lemma general_info_has_weight_height_witness :
  exists d skg sm w h,
    info_cont (profile full_info []) = Some d
    /\ find_string " kg" d = Some skg
    /\ find_string " m" d = Some sm
    /\ Some (Finite false 68 0) = Some w
    /\ Some (Finite false 185 (-2)) = Some h.
Proof.
  apply (general_info_has_weight_height (profile full_info [])
           {| Out.name := "John Doe";
              Out.team := "Example Team";
              Out.age := 28;
              Out.nationality := "Belgium";
              Out.weight := Some (Finite false 68 0);
              Out.height := Some (Finite false 185 (-2));
              Out.strava := {| link := ""; id := "" |};
              Out.ranks := {| pcs := 12; uci := 7 |} |}).
  reflexivity.
Defined.

(** X2: on a page without a [body] element every extractor that starts
    from [soup.body] raises [AttributeError], and so does
    [general_info]; [get_name] and [get_nationality] search the whole
    document and do not need the body. *)
Theorem no_body_AttributeError (self : Rider) :
  body (soup self) = None ->
  get_team_history self = Raise AttributeError
  /\ get_current_team self = Raise AttributeError
  /\ get_age self = Raise AttributeError
  /\ get_height self = Raise AttributeError
  /\ get_weight self = Raise AttributeError
  /\ get_strava self = Raise AttributeError
  /\ get_ranks self = Raise AttributeError
  /\ general_info self = Raise AttributeError.
Proof.
  intros H.
  assert (T : get_current_team self = Raise AttributeError)
    by (unfold get_current_team; now rewrite H).
  repeat split; try exact T.
  - unfold get_team_history. now rewrite H.
  - unfold get_age. now rewrite H.
  - unfold get_height. now rewrite H.
  - unfold get_weight. now rewrite H.
  - unfold get_strava. now rewrite H.
  - unfold get_ranks. now rewrite H.
  - unfold general_info. destruct (get_name self) as [n | e] eqn:N.
    + cbn [Py.bind]. now rewrite T.
    + cbn [Py.bind]. now rewrite (get_name_raises self e N).
Qed.

Lemma no_body_AttributeError_witness :
  get_name bodiless_page = Ok "John Doe"
  /\ general_info bodiless_page = Raise AttributeError.
Proof.
  split; [reflexivity |].
  apply (no_body_AttributeError bodiless_page). reflexivity.
Defined.

(** ** The ranks, the other way round *)

Lemma get_ranks_no_list (self : Rider) :
  rank_elements self = None -> get_ranks self = Raise AttributeError.
Proof.
  unfold rank_elements, get_ranks. intros H.
  destruct (body (soup self)) as [b |]; [| reflexivity].
  cbn [deref Py.bind].
  destruct (find (Some "ul") [class_ "list horizontal rdr-rankings"] b);
    [discriminate | reflexivity].
Qed.

Lemma ranks_loop_one (a : node) :
  for_each ranks_step (enumerate [a]) (None, None)
  = (p <- int (text a);; Ok (Some p, None)).
Proof.
  unfold enumerate. cbn [enumerate_from for_each]. unfold ranks_step.
  cbn [Z.eqb snd]. now destruct (int (text a)).
Qed.

(** X3: [get_ranks] returns only for a page whose rankings list has at
    least two rank elements, and what it returns is what [int] reads in
    the first two. *)
Theorem get_ranks_only_from_two (self : Rider) (r : ranks) :
  get_ranks self = Ok r ->
  exists a1 a2 rest,
    rank_elements self = Some (a1 :: a2 :: rest)
    /\ int (text a1) = Ok (pcs r)
    /\ int (text a2) = Ok (uci r).
Proof.
  intros H. destruct (rank_elements self) as [links |] eqn:E.
  - rewrite (get_ranks_links self links E) in H.
    destruct links as [| a1 [| a2 rest]].
    + discriminate.
    + rewrite ranks_loop_one in H.
      destruct (int (text a1)); discriminate.
    + rewrite ranks_loop_two in H.
      destruct (int (text a1)) as [p |] eqn:I1; [| discriminate].
      destruct (int (text a2)) as [u |] eqn:I2; [| discriminate].
      injection H as <-. exists a1, a2, rest. cbn [pcs uci].
      repeat split; assumption.
  - rewrite (get_ranks_no_list self E) in H. discriminate.
Qed.

Lemma get_ranks_only_from_two_witness :
  exists a1 a2 rest,
    rank_elements (ranks_page ["12"; "7"]) = Some (a1 :: a2 :: rest)
    /\ int (text a1) = Ok 12
    /\ int (text a2) = Ok 7.
Proof.
  apply (get_ranks_only_from_two (ranks_page ["12"; "7"])
           {| pcs := 12; uci := 7 |}).
  reflexivity.
Defined.

(** X4: with fewer than two rank elements [get_ranks] always raises:
    [UnboundLocalError] when the elements there are have integer text
    (a rank was never assigned), [ValueError] otherwise. *)
Theorem get_ranks_fewer_than_two (self : Rider) (links : list node) :
  rank_elements self = Some links ->
  (List.length links < 2)%nat ->
  get_ranks self
  = Raise (if forallb (fun a => is_ok (int (text a))) links
           then UnboundLocalError else ValueError).
Proof.
  intros E L. rewrite (get_ranks_links self links E).
  destruct links as [| a [| a' rest]].
  - reflexivity.
  - rewrite ranks_loop_one. cbn [forallb].
    destruct (int (text a)) as [p | e] eqn:I; cbn [is_ok andb Py.bind].
    + reflexivity.
    + now rewrite (int_raises_ValueError _ _ I).
  - cbn [List.length] in L. lia.
Qed.

Lemma get_ranks_fewer_than_two_witness :
  get_ranks (ranks_page ["12"]) = Raise UnboundLocalError
  /\ get_ranks (ranks_page ["n/a"]) = Raise ValueError.
Proof.
  split.
  - apply (get_ranks_fewer_than_two (ranks_page ["12"])
             [Tag "div" [("class", "rnk")] [NavigableString "12"]]).
    + reflexivity.
    + cbn [List.length]. lia.
  - apply (get_ranks_fewer_than_two (ranks_page ["n/a"])
             [Tag "div" [("class", "rnk")] [NavigableString "n/a"]]).
    + reflexivity.
    + cbn [List.length]. lia.
Defined.

(** ** The current team *)

(** ** The current team *)

(** X5: [get_current_team] returns the text of the last span of the
    title block, and raises [IndexError] when the block has no span. *)
Theorem get_current_team_last_span (self : Rider) (spans : list node) :
  team_spans self = Some spans ->
  (spans = [] -> get_current_team self = Raise IndexError)
  /\ (forall front s, spans = front ++ [s] ->
                      get_current_team self = Ok (text s)).
Proof.
  unfold team_spans, get_current_team. intros H.
  destruct (body (soup self)) as [b |]; [| discriminate].
  cbn [deref Py.bind].
  destruct (find None [class_ "page-title"] b) as [t |]; [| discriminate].
  cbn [deref Py.bind].
  destruct (find None [class_ "main"] t) as [m |]; [| discriminate].
  cbn [deref Py.bind]. injection H as ->. split.
  - intros ->. now rewrite getitem_nil.
  - intros front s ->. now rewrite getitem_last.
Qed.

Lemma get_current_team_last_span_witness :
  get_current_team (profile full_info []) = Ok "Example Team".
Proof.
  pose proof (get_current_team_last_span (profile full_info [])
                [Tag "span" [("class", "flag be")] [];
                 Tag "span" [] [NavigableString "Example Team"]]
                eq_refl) as [_ L].
  apply (L [Tag "span" [("class", "flag be")] []]
            (Tag "span" [] [NavigableString "Example Team"])).
  reflexivity.
Defined.

(** ** The team history *)

Lemma hd_error_filter {A} (p : A -> bool) : forall l a,
  hd_error (filter p l) = Some a -> p a = true /\ In a l.
Proof.
  induction l as [| x l IH]; intros a H; [discriminate |].
  cbn [filter] in H. destruct (p x) eqn:E.
  - injection H as <-. split; [exact E | now left].
  - destruct (IH a H) as [P I]. split; [exact P | now right].
Qed.

(** An element found with [href=True] has the attribute. *)
Lemma find_href (nm : option string) (n a : node) :
  find nm [("href", IsTrue)] n = Some a -> exists v, get a "href" = Some v.
Proof.
  unfold find, find_all. intros H.
  apply hd_error_filter in H as [M _].
  destruct a as [s | t attrs cs]; [discriminate |].
  cbn [matches forallb attr_matches] in M.
  apply andb_prop in M as [_ M]. rewrite andb_true_r in M.
  cbn [get]. destruct (lookup "href" attrs) as [v |]; [now exists v |].
  discriminate.
Qed.

(** The body of the loop either adds one row of five fields or raises
    [AttributeError]. *)
Lemma team_row_cases (data : list (list string)) (team : node) :
  (exists r, team_row data team = Ok (data ++ [r]) /\ List.length r = 5%nat)
  \/ team_row data team = Raise AttributeError.
Proof.
  unfold team_row.
  destruct (find (Some "div") [class_ "season"] team) as [d |];
    cbn [deref Py.bind]; [| now right].
  destruct (find (Some "a") [] team) as [a |];
    cbn [deref Py.bind]; [| now right].
  destruct (find (Some "a") [("href", IsTrue)] team) as [a' |] eqn:F;
    cbn [deref Py.bind]; [| now right].
  destruct (find_href _ _ _ F) as [v V]. rewrite V.
  cbn [subscriptable Py.bind]. left. eexists. split; reflexivity.
Qed.

Lemma team_loop_cases : forall teams data,
  Forall (fun r => List.length r = 5%nat) data ->
  (exists data', for_each team_row teams data = Ok data'
                 /\ Forall (fun r => List.length r = 5%nat) data'
                 /\ List.length data'
                    = (List.length data + List.length teams)%nat)
  \/ for_each team_row teams data = Raise AttributeError.
Proof.
  induction teams as [| team teams IH]; intros data F.
  - left. exists data. cbn. repeat split; [exact F | lia].
  - cbn [for_each].
    destruct (team_row_cases data team) as [[r [R L]] | R]; rewrite R;
      cbn [Py.bind]; [| now right].
    destruct (IH (data ++ [r])) as [[data' [D [F' L']]] | D].
    + apply Forall_app. split; [exact F | now constructor].
    + left. exists data'. repeat split; [exact D | exact F' |].
      rewrite L', length_app. cbn [List.length]. lia.
    + now right.
Qed.

(** X6: [get_team_history] either returns a frame with the five columns
    and one row of five cells for each entry of the teams list, or raises
    [AttributeError]; it raises nothing else, and a list without entries
    gives the empty frame. *)
Theorem get_team_history_total (self : Rider) :
  (exists frame,
      get_team_history self = Ok frame
      /\ Pd.columns frame = team_columns
      /\ Forall (fun r => List.length r = 5%nat) (Pd.values frame)
      /\ (forall teams, team_entries self = Some teams ->
                        List.length (Pd.values frame) = List.length teams))
  \/ get_team_history self = Raise AttributeError.
Proof.
  unfold get_team_history, team_entries.
  destruct (body (soup self)) as [b |]; cbn [deref Py.bind]; [| now right].
  destruct (find (Some "ul") [class_ "list rdr-teams moblist moblist"] b)
    as [ul |]; cbn [deref Py.bind]; [| now right].
  destruct (team_loop_cases (find_all (Some "li") [class_ "main"] ul) [])
    as [[data [D [F L]]] | D]; [constructor | |]; rewrite D;
    cbn [Py.bind]; [| now right].
  left. rewrite (mkDataFrame_full data team_columns) by exact F.
  eexists. split; [reflexivity |]. cbn [Pd.columns Pd.values].
  split; [reflexivity | split].
  - apply Forall_map. revert F. apply Forall_impl.
    intros r R. now rewrite length_map.
  - intros teams [= <-]. rewrite length_map, L. reflexivity.
Qed.

(** ** Slices *)

Lemma append_assoc (a b c : string) : ((a ++ b) ++ c = a ++ (b ++ c))%string.
Proof. induction a as [| x a IH]; [reflexivity |]. cbn. now rewrite IH. Qed.

Lemma append_nil_r (a : string) : (a ++ "")%string = a.
Proof. induction a as [| x a IH]; [reflexivity |]. cbn. now rewrite IH. Qed.

Lemma length_append (a b : string) :
  String.length (a ++ b) = (String.length a + String.length b)%nat.
Proof. induction a as [| x a IH]; [reflexivity |]. cbn. now rewrite IH. Qed.

Lemma len_append (a b : string) : len (a ++ b) = len a + len b.
Proof. unfold len. rewrite length_append. lia. Qed.

Lemma substring_zero : forall s n, substring n 0 s = EmptyString.
Proof.
  induction s as [| c s IH]; intros [| n]; try reflexivity. cbn. apply IH.
Qed.

Lemma substring_skip : forall p n m s,
  substring (String.length p + n) m (p ++ s) = substring n m s.
Proof. induction p as [| c p IH]; intros n m s; [reflexivity |]. cbn. apply IH. Qed.

Lemma substring_front : forall x r,
  substring 0 (String.length x) (x ++ r) = x.
Proof.
  induction x as [| c x IH]; intros r.
  - cbn. now destruct r.
  - cbn. now rewrite IH.
Qed.

Lemma substring_middle (p x r : string) :
  substring (String.length p) (String.length x) (p ++ x ++ r) = x.
Proof.
  rewrite <- (Nat.add_0_r (String.length p)), substring_skip.
  apply substring_front.
Qed.

Lemma length_substring : forall s n m,
  String.length (substring n m s) = Nat.min m (String.length s - n).
Proof.
  induction s as [| c s IH]; intros [| n] [| m]; cbn; try reflexivity.
  - now rewrite IH, Nat.sub_0_r.
  - now rewrite IH.
  - now rewrite IH.
Qed.

Lemma substring_whole : forall s m,
  (String.length s <= m)%nat -> substring 0 m s = s.
Proof.
  induction s as [| c s IH]; intros [| m] H; cbn in *; try reflexivity.
  - lia.
  - rewrite IH by lia. reflexivity.
Qed.

Lemma length_zero (s : string) : String.length s = O -> s = EmptyString.
Proof. now destruct s. Qed.

(** [s[a:b]] for bounds inside the text. *)
Lemma slice_inside (s : string) (a b : Z) :
  0 <= a <= len s -> 0 <= b <= len s ->
  slice s (Some a) (Some b) = substring (Z.to_nat a) (Z.to_nat (b - a)) s.
Proof.
  intros A B. unfold slice, clamp.
  replace (a <? 0) with false by (symmetry; apply Z.ltb_ge; lia).
  replace (b <? 0) with false by (symmetry; apply Z.ltb_ge; lia).
  now rewrite !Z.min_l by lia.
Qed.

(** ** The identifier and the year of a team link *)

(** X7: for a link made of five characters, a name, one character and
    four characters (as "team/" name "-" year), the identifier is the
    name and the year the four last characters. *)
Theorem team_link_round_trip (front slug year : string) (c : ascii) :
  String.length front = 5%nat ->
  String.length year = 4%nat ->
  team_pcs_name (front ++ slug ++ String c year) = slug
  /\ team_pcs_year (front ++ slug ++ String c year) = year.
Proof.
  intros F Y. unfold team_pcs_name, team_pcs_year, slice, clamp.
  assert (N : len (front ++ slug ++ String c year) = 10 + len slug).
  { rewrite !len_append. unfold len. cbn [String.length]. lia. }
  rewrite N. cbn [Z.ltb Z.compare].
  assert (P : 0 <= len slug) by (unfold len; lia).
  replace (Z.min 5 (10 + len slug)) with 5 by lia.
  replace (Z.max (-5 + (10 + len slug)) 0) with (5 + len slug) by lia.
  replace (Z.max (-4 + (10 + len slug)) 0) with (6 + len slug) by lia.
  split.
  - replace (Z.to_nat 5) with (String.length front) by lia.
    replace (Z.to_nat (5 + len slug - 5)) with (String.length slug)
      by (unfold len; lia).
    apply substring_middle.
  - replace (Z.to_nat (10 + len slug - (6 + len slug))) with 4%nat by lia.
    replace (front ++ slug ++ String c year)%string
      with ((front ++ slug ++ String c EmptyString) ++ year)%string
      by (now rewrite !append_assoc).
    replace (Z.to_nat (6 + len slug))
      with (String.length (front ++ slug ++ String c EmptyString) + 0)%nat
      by (rewrite !length_append; unfold len; cbn [String.length]; lia).
    rewrite substring_skip. apply substring_whole. lia.
Qed.

Lemma team_link_round_trip_witness :
  team_pcs_name "team/example-team-2023" = "example-team"
  /\ team_pcs_year "team/example-team-2023" = "2023".
Proof.
  apply (team_link_round_trip "team/" "example-team" "2023" "-");
    reflexivity.
Defined.

(** X8: the identifier of a link has ten characters fewer than the link
    and is empty for a link of ten characters or fewer; the year has four
    characters, or is the whole link when the link has four or fewer. *)
Theorem team_link_lengths (team_href : string) :
  String.length (team_pcs_name team_href)
  = (String.length team_href - 10)%nat
  /\ String.length (team_pcs_year team_href)
     = Nat.min 4 (String.length team_href)
  /\ ((String.length team_href <= 10)%nat ->
      team_pcs_name team_href = EmptyString)
  /\ ((String.length team_href <= 4)%nat ->
      team_pcs_year team_href = team_href).
Proof.
  assert (L : String.length (team_pcs_name team_href)
              = (String.length team_href - 10)%nat).
  { unfold team_pcs_name, slice, clamp, len. cbn [Z.ltb Z.compare].
    rewrite length_substring. lia. }
  repeat split.
  - exact L.
  - unfold team_pcs_year, slice, clamp, len. cbn [Z.ltb Z.compare].
    rewrite length_substring. lia.
  - intros H. apply length_zero. rewrite L. lia.
  - intros H. unfold team_pcs_year, slice, clamp, len. cbn [Z.ltb Z.compare].
    replace (Z.max (-4 + Z.of_nat (String.length team_href)) 0) with 0 by lia.
    apply substring_whole. lia.
Qed.

(** ** Where a character is found *)

Lemma without_app (c : ascii) (a b : string) :
  without c (a ++ b) = without c a && without c b.
Proof.
  unfold without. induction a as [| x a IH]; [reflexivity |].
  cbn [append all_chars]. now rewrite IH, andb_assoc.
Qed.

Lemma prefix_char (c x : ascii) (s : string) :
  prefix (String c EmptyString) (String x s) = Ascii.eqb c x.
Proof. rewrite prefix_cons, prefix_nil. apply andb_true_r. Qed.

Lemma find_from_here (c : ascii) : forall pre rest i,
  without c pre = true ->
  find_from (String c EmptyString) (pre ++ String c rest) i = i + len pre.
Proof.
  induction pre as [| x pre IH]; intros rest i H.
  - cbn [append find_from]. rewrite prefix_char, Ascii.eqb_refl.
    unfold len. cbn. lia.
  - cbn [without all_chars] in H. apply andb_prop in H as [Hx Hp].
    apply negb_true_iff in Hx. rewrite Ascii.eqb_sym in Hx.
    cbn [append find_from]. rewrite prefix_char, Hx.
    rewrite (IH rest (i + 1) Hp). unfold len. cbn [String.length]. lia.
Qed.

Lemma find_from_absent (c : ascii) : forall s i,
  without c s = true -> find_from (String c EmptyString) s i = -1.
Proof.
  induction s as [| x s IH]; intros i H; [reflexivity |].
  cbn [without all_chars] in H. apply andb_prop in H as [Hx Hs].
  apply negb_true_iff in Hx. rewrite Ascii.eqb_sym in Hx.
  cbn [find_from]. rewrite prefix_char, Hx. now apply IH.
Qed.

Lemma find_here (c : ascii) (pre rest : string) :
  without c pre = true ->
  Py.find (String c EmptyString) (pre ++ String c rest) = len pre.
Proof. intros H. unfold Py.find. now rewrite find_from_here. Qed.

Lemma find_absent (c : ascii) (s : string) :
  without c s = true -> Py.find (String c EmptyString) s = -1.
Proof. intros H. unfold Py.find. now apply find_from_absent. Qed.

Lemma len_nonneg (s : string) : 0 <= len s.
Proof. unfold len. lia. Qed.

Lemma len_cons (c : ascii) (s : string) : len (String c s) = 1 + len s.
Proof. unfold len. cbn [String.length]. lia. Qed.

Ltac lens := rewrite ?len_append, ?len_cons, ?len_append; lia.

(** ** The age, by the shape of the text *)

(** X9: for an info text of the shape [pre(g)post], with no parenthesis
    in [pre] and no closing one in [g], [get_age] is [int(g)]: the
    integer, or [ValueError]. *)
Theorem get_age_of_group (self : Rider) (d : node) (pre g post : string) :
  info_cont self = Some d ->
  text d = (pre ++ "(" ++ g ++ ")" ++ post)%string ->
  without "(" pre = true ->
  without ")" pre = true ->
  without ")" g = true ->
  get_age self = int g.
Proof.
  intros I T P1 P2 G. rewrite (get_age_info self d I), T.
  change (pre ++ "(" ++ g ++ ")" ++ post)%string
    with (pre ++ String "(" (g ++ String ")" post))%string.
  rewrite (find_here "(" pre _ P1).
  replace (pre ++ String "(" (g ++ String ")" post))%string
    with ((pre ++ String "(" g) ++ String ")" post)%string
    by (rewrite append_assoc; reflexivity).
  rewrite (find_here ")" (pre ++ String "(" g) post)
    by (rewrite without_app, P2; cbn [andb]; exact G).
  pose proof (len_nonneg pre). pose proof (len_nonneg g).
  pose proof (len_nonneg post).
  rewrite slice_inside.
  - replace (Z.to_nat (len pre + 1))
      with (String.length (pre ++ "(") + 0)%nat
      by (rewrite length_append; unfold len; cbn [String.length]; lia).
    replace (Z.to_nat (len (pre ++ String "(" g) - (len pre + 1)))
      with (String.length g)
      by (rewrite len_append; unfold len; cbn [String.length]; lia).
    replace ((pre ++ String "(" g) ++ String ")" post)%string
      with ((pre ++ "(") ++ g ++ String ")" post)%string
      by (rewrite !append_assoc; reflexivity).
    rewrite substring_skip. now rewrite substring_front.
  - lens.
  - lens.
Qed.

Lemma get_age_of_group_witness :
  get_age (info_page [NavigableString "Date of birth: 1st January 1995 (28)"])
  = int "28".
Proof.
  apply (get_age_of_group _
           (Tag "div" [("class", "rdr-info-cont")]
              [NavigableString "Date of birth: 1st January 1995 (28)"])
           "Date of birth: 1st January 1995 " "28" ""); reflexivity.
Defined.

(** X10: a closing parenthesis before the first opening one makes
    [get_age] raise [ValueError], whatever follows: the slice between
    them is empty. *)
Theorem get_age_closing_first (self : Rider) (d : node)
  (pre mid post : string) :
  info_cont self = Some d ->
  text d = (pre ++ ")" ++ mid ++ "(" ++ post)%string ->
  without "(" pre = true ->
  without ")" pre = true ->
  without "(" mid = true ->
  get_age self = Raise ValueError.
Proof.
  intros I T P1 P2 M. rewrite (get_age_info self d I), T.
  change (pre ++ ")" ++ mid ++ "(" ++ post)%string
    with (pre ++ String ")" (mid ++ String "(" post))%string.
  rewrite (find_here ")" pre _ P2).
  replace (pre ++ String ")" (mid ++ String "(" post))%string
    with ((pre ++ String ")" mid) ++ String "(" post)%string
    by (rewrite append_assoc; reflexivity).
  rewrite (find_here "(" (pre ++ String ")" mid) post)
    by (rewrite without_app, P1; cbn [andb]; exact M).
  pose proof (len_nonneg pre). pose proof (len_nonneg mid).
  pose proof (len_nonneg post).
  rewrite slice_inside.
  - replace (Z.to_nat (len pre - (len (pre ++ String ")" mid) + 1)))
      with O
      by (rewrite len_append; unfold len; cbn [String.length]; lia).
    now rewrite substring_zero.
  - lens.
  - lens.
Qed.

Lemma get_age_closing_first_witness :
  get_age (info_page [NavigableString "born) 1995 (28)"])
  = Raise ValueError.
Proof.
  apply (get_age_closing_first _
           (Tag "div" [("class", "rdr-info-cont")]
              [NavigableString "born) 1995 (28)"])
           "born" " 1995 " "28)"); reflexivity.
Defined.

(** X11: with a parenthesis missing [get_age] still reads a slice. With
    no ")" in the text, the slice runs from the "(" to before the last
    character of the text, which is lost; with no "(" it is the text
    before the first ")". *)
Theorem get_age_missing_parenthesis (self : Rider) (d : node) :
  info_cont self = Some d ->
  (forall pre g c,
      text d = (pre ++ "(" ++ g ++ String c "")%string ->
      without "(" pre = true ->
      without ")" (text d) = true ->
      get_age self = int g)
  /\ (forall pre post,
         text d = (pre ++ ")" ++ post)%string ->
         without ")" pre = true ->
         without "(" (text d) = true ->
         get_age self = int pre).
Proof.
  intros I. split.
  - intros pre g c T P A. rewrite (get_age_info self d I).
    rewrite (find_absent ")" (text d) A). rewrite T.
    change (pre ++ "(" ++ g ++ String c "")%string
      with (pre ++ String "(" (g ++ String c ""))%string.
    rewrite (find_here "(" pre _ P).
    pose proof (len_nonneg pre). pose proof (len_nonneg g).
    unfold slice, clamp. cbn [Z.ltb Z.compare].
    replace (len pre + 1 <? 0) with false by (symmetry; apply Z.ltb_ge; lia).
    assert (N : len (pre ++ String "(" (g ++ String c ""))
                = len pre + len g + 2)
      by (rewrite len_append, len_cons, len_append, len_cons;
          change (len "") with 0; lia).
    rewrite N.
    replace (Z.min (len pre + 1) (len pre + len g + 2)) with (len pre + 1)
      by lia.
    replace (Z.max (-1 + (len pre + len g + 2)) 0) with (len pre + len g + 1)
      by lia.
    replace (Z.to_nat (len pre + 1))
      with (String.length (pre ++ "(") + 0)%nat
      by (rewrite length_append; unfold len; cbn [String.length]; lia).
    replace (Z.to_nat (len pre + len g + 1 - (len pre + 1)))
      with (String.length g) by (unfold len; lia).
    replace (pre ++ String "(" (g ++ String c ""))%string
      with ((pre ++ "(") ++ g ++ String c "")%string
      by (rewrite !append_assoc; reflexivity).
    rewrite substring_skip. now rewrite substring_front.
  - intros pre post T P A. rewrite (get_age_info self d I).
    rewrite (find_absent "(" (text d) A). rewrite T.
    change (pre ++ ")" ++ post)%string with (pre ++ String ")" post)%string.
    rewrite (find_here ")" pre _ P).
    pose proof (len_nonneg pre). pose proof (len_nonneg post).
    rewrite slice_inside.
    + cbn [Z.add Z.to_nat Z.opp Z.pos_sub]. rewrite Z.sub_0_r.
      replace (Z.to_nat (len pre)) with (String.length pre)
        by (unfold len; lia).
      apply f_equal. apply substring_front.
    + cbn. lens.
    + lens.
Qed.

Lemma get_age_missing_parenthesis_witness :
  get_age (info_page [NavigableString "1995 (28"]) = int "2"
  /\ get_age (info_page [NavigableString "28) years"]) = int "28".
Proof.
  split.
  - pose proof (get_age_missing_parenthesis
                  (info_page [NavigableString "1995 (28"])
                  (Tag "div" [("class", "rdr-info-cont")]
                     [NavigableString "1995 (28"]) eq_refl) as [A _].
    apply (A "1995 " "2" "8"%char); reflexivity.
  - pose proof (get_age_missing_parenthesis
                  (info_page [NavigableString "28) years"])
                  (Tag "div" [("class", "rdr-info-cont")]
                     [NavigableString "28) years"]) eq_refl) as [_ B].
    apply (B "28" " years"); reflexivity.
Defined.

(** ** Pieces between slashes *)

Lemma split_on_without (c : ascii) : forall s,
  without c s = true -> split_on c s = [s].
Proof.
  induction s as [| x s IH]; intros H; [reflexivity |].
  cbn [without all_chars] in H. apply andb_prop in H as [Hx Hs].
  apply negb_true_iff in Hx.
  cbn [split_on]. rewrite Hx. now rewrite (IH Hs).
Qed.

Lemma split_on_not_nil (c : ascii) : forall s, split_on c s <> [].
Proof.
  induction s as [| x s IH]; [discriminate |].
  cbn [split_on]. destruct (Ascii.eqb x c); [discriminate |].
  destruct (split_on c s); [contradiction | discriminate].
Qed.

Lemma split_on_app (c : ascii) : forall x rest,
  without c x = true ->
  split_on c (x ++ String c rest) = x :: split_on c rest.
Proof.
  induction x as [| y x IH]; intros rest H.
  - cbn [append split_on]. now rewrite Ascii.eqb_refl.
  - cbn [without all_chars] in H. apply andb_prop in H as [Hy Hx].
    apply negb_true_iff in Hy.
    cbn [append split_on]. rewrite Hy. now rewrite (IH rest Hx).
Qed.

(** The pieces of pieces joined by the separator are the pieces. *)
Lemma split_on_concat (c : ascii) : forall parts,
  parts <> [] ->
  forallb (without c) parts = true ->
  split_on c (String.concat (String c EmptyString) parts) = parts.
Proof.
  induction parts as [| p parts IH]; intros NE H; [contradiction |].
  cbn [forallb] in H. apply andb_prop in H as [Hp Hs].
  destruct parts as [| q parts].
  - cbn [String.concat]. now apply split_on_without.
  - change (String.concat (String c "") (p :: q :: parts))
      with (p ++ String c (String.concat (String c "") (q :: parts)))%string.
    rewrite (split_on_app c p _ Hp). now rewrite IH.
Qed.

(** The last piece of a text that ends with a slash-free piece. *)
Lemma split_on_last (c : ascii) : forall front i,
  without c i = true ->
  exists pieces, split_on c (front ++ String c i) = pieces ++ [i].
Proof.
  induction front as [| x front IH]; intros i H.
  - exists [EmptyString]. cbn [append split_on].
    now rewrite Ascii.eqb_refl, (split_on_without c i H).
  - destruct (IH i H) as [pieces E].
    cbn [append split_on]. rewrite E.
    destruct (Ascii.eqb x c).
    + now exists (EmptyString :: pieces).
    + destruct pieces as [| h t].
      * exfalso. cbn [app] in E.
        assert (L : List.length (split_on c (front ++ String c i)) = 1%nat)
          by now rewrite E.
        clear - L. revert L. induction front as [| y front IHf].
        -- cbn [append split_on]. rewrite Ascii.eqb_refl.
           cbn [List.length]. pose proof (split_on_not_nil c i).
           destruct (split_on c i); [contradiction | discriminate].
        -- cbn [append split_on]. destruct (Ascii.eqb y c).
           ++ cbn [List.length]. pose proof (split_on_not_nil c (front ++ String c i)).
              destruct (split_on c (front ++ String c i));
                [contradiction | discriminate].
           ++ destruct (split_on c (front ++ String c i)) as [| h t] eqn:S.
              ** now destruct (split_on_not_nil c (front ++ String c i)).
              ** cbn [List.length] in *. exact IHf.
      * now exists (String x h :: t).
Qed.

(** ** The addresses of the result pages *)

(** X12: the address [get_race_history] asks first, written out apart
    in the source, is the address of the page at offset 0 that the loop
    asks again. *)
Theorem first_results_url_is_offset_0 (rider_id : string) :
  first_results_url rider_id = results_url rider_id "0".
Proof. reflexivity. Qed.

Lemma page_records_ext (fetch1 fetch2 : string -> node) (rider_id : string) :
  (forall v, fetch1 (results_url rider_id v) = fetch2 (results_url rider_id v)) ->
  forall limit, page_records fetch1 rider_id limit
                = page_records fetch2 rider_id limit.
Proof.
  intros E limit. unfold page_records.
  destruct (Bs4.getitem limit "value") as [v | e]; [| reflexivity].
  cbn [Py.bind]. now rewrite E.
Qed.

(** X13: for a rider address that ends in a slash and a slash-free name,
    [get_race_history] asks only for result pages of that name: two
    sources of pages that agree on these addresses give the same
    result. *)
Theorem get_race_history_asks_rider_pages
  (fetch1 fetch2 : string -> node) (self : Rider) (front i : string) :
  url self = (front ++ "/" ++ i)%string ->
  without "/" i = true ->
  (forall v, fetch1 (results_url i v) = fetch2 (results_url i v)) ->
  get_race_history fetch1 self = get_race_history fetch2 self.
Proof.
  intros U W E. rewrite !get_race_history_pages, U.
  change (front ++ "/" ++ i)%string with (front ++ String "/" i)%string.
  destruct (split_on_last "/" front i W) as [pieces S].
  rewrite S, getitem_last. cbn [Py.bind]. rewrite E.
  destruct (offsets (fetch2 (results_url i "0"))) as [limits | e];
    [| reflexivity].
  cbn [Py.bind].
  now rewrite (mapM_ext _ _ (page_records_ext fetch1 fetch2 i E)).
Qed.

Lemma get_race_history_asks_rider_pages_witness :
  get_race_history sample_fetch
    {| url := "https://www.procyclingstats.com/rider/john-doe";
       soup := BeautifulSoup [] |}
  = get_race_history
      (fun address =>
         if String.eqb address "https://www.procyclingstats.com/"
         then BeautifulSoup []
         else sample_fetch address)
      {| url := "https://www.procyclingstats.com/rider/john-doe";
         soup := BeautifulSoup [] |}.
Proof.
  apply (get_race_history_asks_rider_pages _ _ _
           "https://www.procyclingstats.com/rider" "john-doe").
  - reflexivity.
  - reflexivity.
  - intros v. reflexivity.
Defined.

(** ** The list of one row *)

Lemma getitem_nth {A} (l : list A) (i : nat) (x : A) :
  nth_error l i = Some x -> Py.getitem l (Z.of_nat i) = Ok x.
Proof.
  intros H. unfold Py.getitem.
  assert (L : (i < List.length l)%nat)
    by (apply nth_error_Some; now rewrite H).
  assert (E1 : (Z.of_nat i <? 0) = false) by (apply Z.ltb_ge; lia).
  assert (E2 : (Z.of_nat (List.length l) <=? Z.of_nat i) = false)
    by (apply Z.leb_gt; lia).
  cbv zeta. rewrite E1. cbv iota. rewrite E1, E2.
  cbn [orb]. now rewrite Nat2Z.id, H.
Qed.

Lemma getitem_from_end {A} (l : list A) (k : nat) (x : A) :
  (0 < k <= List.length l)%nat ->
  nth_error l (List.length l - k) = Some x ->
  Py.getitem l (- Z.of_nat k) = Ok x.
Proof.
  intros K H. unfold Py.getitem.
  assert (E0 : (- Z.of_nat k <? 0) = true) by (apply Z.ltb_lt; lia).
  assert (J : - Z.of_nat k + Z.of_nat (List.length l)
              = Z.of_nat (List.length l - k)) by lia.
  assert (E1 : (Z.of_nat (List.length l - k) <? 0) = false)
    by (apply Z.ltb_ge; lia).
  assert (E2 : (Z.of_nat (List.length l) <=? Z.of_nat (List.length l - k))
               = false) by (apply Z.leb_gt; lia).
  cbv zeta. rewrite E0. cbv iota. rewrite J, E1, E2.
  cbn [orb]. now rewrite Nat2Z.id, H.
Qed.

(** X14: the list of a row of four cells or more. The second and third
    cells and those after the fourth give their text, or "-"; the fourth
    gives the text of its first anchor, the address of its first anchor
    with one, and of the pieces of that address between slashes the
    second (the race) and the last but one (the year). *)
Theorem race_row_fields (row c0 c1 c2 c3 : node) (rest : list node)
  (a a' : node) (parts : list string) (nm yr : string) :
  cells row = c0 :: c1 :: c2 :: c3 :: rest ->
  find (Some "a") [] c3 = Some a ->
  find (Some "a") [("href", IsTrue)] c3 = Some a' ->
  get a' "href" = Some (String.concat "/" parts) ->
  forallb (without "/") parts = true ->
  nth_error parts 1 = Some nm ->
  nth_error parts (List.length parts - 2) = Some yr ->
  race_row row
  = Ok ([stored (text c1); stored (text c2);
         text a; String.concat "/" parts; nm; yr]
        ++ map (fun v => stored (text v)) rest).
Proof.
  intros C A A' H W N Y. unfold race_row. fold (cells row). rewrite C.
  unfold enumerate. cbn [enumerate_from for_each Z.add Pos.add].
  change (race_cell [] (0, c0)) with (Ok (@nil string)).
  cbn [Py.bind].
  rewrite (race_cell_plain [] 1 c1) by lia. cbn [Py.bind app].
  rewrite (race_cell_plain _ 2 c2) by lia. cbn [Py.bind app].
  assert (P : parts <> []) by (intros ->; discriminate).
  assert (L : (2 <= List.length parts)%nat).
  { assert (1 < List.length parts)%nat
      by (apply nth_error_Some; now rewrite N). lia. }
  unfold race_cell at 1. cbn [Z.eqb Pos.eqb].
  rewrite A. cbn [deref Py.bind]. rewrite A'. cbn [deref Py.bind].
  rewrite H. cbn [subscriptable Py.bind].
  rewrite (split_on_concat "/" parts P W).
  pose proof (getitem_nth parts 1 nm N) as G1.
  assert (G2 : Py.getitem parts (- Z.of_nat 2) = Ok yr)
    by (apply getitem_from_end; [lia | exact Y]).
  change (Z.of_nat 1) with 1 in G1. change (- Z.of_nat 2) with (-2) in G2.
  rewrite G1. cbn [Py.bind]. rewrite G2. cbn [Py.bind app]. now rewrite race_cells_later by lia.
Qed.

Lemma race_row_fields_witness :
  race_row (sample_row "2023-07-01") = Ok (sample_record "2023-07-01").
Proof.
  apply (race_row_fields (sample_row "2023-07-01")
           (Tag "td" [] [NavigableString "1"])
           (Tag "td" [] [NavigableString "2023-07-01"])
           (Tag "td" [] [NavigableString "3"])
           (Tag "td" [] [Tag "a" [("href", "race/tour-de-france/2023/stage-1")]
                           [NavigableString "Tour de France"]])
           [Tag "td" [] [NavigableString "2.UWT"];
            Tag "td" [] []; Tag "td" [] []; Tag "td" [] []]
           (Tag "a" [("href", "race/tour-de-france/2023/stage-1")]
              [NavigableString "Tour de France"])
           (Tag "a" [("href", "race/tour-de-france/2023/stage-1")]
              [NavigableString "Tour de France"])
           ["race"; "tour-de-france"; "2023"; "stage-1"]
           "tour-de-france" "2023"); reflexivity.
Defined.

(** X15: a row of three cells or fewer never raises: its list is the
    text, or "-", of each cell but the first. *)
Theorem race_row_short (row : node) :
  (List.length (cells row) <= 3)%nat ->
  race_row row = Ok (map (fun v => stored (text v)) (tl (cells row))).
Proof.
  intros L. unfold race_row. fold (cells row).
  destruct (cells row) as [| c0 [| c1 [| c2 [| c3 rest]]]].
  - reflexivity.
  - reflexivity.
  - reflexivity.
  - reflexivity.
  - cbn [List.length] in L. lia.
Qed.

Lemma race_row_short_witness :
  race_row (Tag "tr" [] [Tag "td" [("colspan", "8")] [NavigableString ""]])
  = Ok [].
Proof.
  apply (race_row_short
           (Tag "tr" [] [Tag "td" [("colspan", "8")] [NavigableString ""]])).
  cbn. lia.
Defined.

(** X16: where the address in the race cell has no slash, the row
    raises [IndexError]. *)
Theorem race_row_no_slash (row c0 c1 c2 c3 : node) (rest : list node)
  (a a' : node) (href : string) :
  cells row = c0 :: c1 :: c2 :: c3 :: rest ->
  find (Some "a") [] c3 = Some a ->
  find (Some "a") [("href", IsTrue)] c3 = Some a' ->
  get a' "href" = Some href ->
  without "/" href = true ->
  race_row row = Raise IndexError.
Proof.
  intros C A A' H W. unfold race_row. fold (cells row). rewrite C.
  unfold enumerate. cbn [enumerate_from for_each Z.add Pos.add].
  change (race_cell [] (0, c0)) with (Ok (@nil string)).
  cbn [Py.bind].
  rewrite (race_cell_plain [] 1 c1) by lia. cbn [Py.bind app].
  rewrite (race_cell_plain _ 2 c2) by lia. cbn [Py.bind app].
  unfold race_cell at 1. cbn [Z.eqb Pos.eqb].
  rewrite A. cbn [deref Py.bind]. rewrite A'. cbn [deref Py.bind].
  rewrite H. cbn [subscriptable Py.bind].
  now rewrite (split_on_without "/" href W).
Qed.

Lemma race_row_no_slash_witness :
  race_row
    (Tag "tr" []
       [Tag "td" [] [NavigableString "1"];
        Tag "td" [] [NavigableString "2023-07-01"];
        Tag "td" [] [NavigableString "3"];
        Tag "td" [] [Tag "a" [("href", "#")] [NavigableString "Race"]]])
  = Raise IndexError.
Proof.
  apply (race_row_no_slash _
           (Tag "td" [] [NavigableString "1"])
           (Tag "td" [] [NavigableString "2023-07-01"])
           (Tag "td" [] [NavigableString "3"])
           (Tag "td" [] [Tag "a" [("href", "#")] [NavigableString "Race"]])
           []
           (Tag "a" [("href", "#")] [NavigableString "Race"])
           (Tag "a" [("href", "#")] [NavigableString "Race"])
           "#"); reflexivity.
Defined.

(** ** A page and its last row *)

(** X17: the last row of a page is never read: whatever it holds, the
    page adds the lists of the rows before it and the last row raises
    nothing. *)
Theorem race_page_never_reads_last (fetch : string -> node)
  (rider_id : string) (acc : list (list string)) (limit : node) (v : string)
  (rows : list node) (last : node) :
  Bs4.getitem limit "value" = Ok v ->
  table_rows (fetch (results_url rider_id v)) = Ok (rows ++ [last]) ->
  race_page fetch rider_id acc limit
  = (rs <- mapM race_row rows;; Ok (acc ++ rs)).
Proof.
  intros V T. rewrite race_page_records. unfold page_records.
  rewrite V. cbn [Py.bind]. rewrite T. cbn [Py.bind].
  now rewrite removelast_last.
Qed.

Lemma race_page_never_reads_last_witness :
  race_page
    (fun _ => BeautifulSoup
                [Tag "tbody" []
                   [sample_row "2023-07-01";
                    Tag "tr" [] [Tag "td" [] []; Tag "td" [] [];
                                 Tag "td" [] []; Tag "td" [] []]]])
    "john-doe" [] (Tag "option" [("value", "0")] [])
  = Ok [sample_record "2023-07-01"].
Proof.
  apply (race_page_never_reads_last _ "john-doe" []
           (Tag "option" [("value", "0")] []) "0"
           [sample_row "2023-07-01"]
           (Tag "tr" [] [Tag "td" [] []; Tag "td" [] [];
                         Tag "td" [] []; Tag "td" [] []]));
    reflexivity.
Defined.

Lemma no_records : forall pages : list (list node),
  Forall (fun rows => (List.length rows <= 1)%nat) pages ->
  mapM (fun rows => mapM race_row (removelast rows)) pages
  = Ok (map (fun _ => []) pages).
Proof.
  induction 1 as [| rows pages L _ IH]; [reflexivity |].
  cbn [mapM map]. rewrite IH.
  destruct rows as [| r [| r' rows]]; [reflexivity | reflexivity |].
  cbn [List.length] in L. lia.
Qed.

Lemma concat_nils {A B} (l : list A) :
  concat (map (fun _ => @nil B) l) = [].
Proof. induction l as [| x l IH]; [reflexivity | exact IH]. Qed.

Lemma get_race_history_of_records (fetch : string -> node) (self : Rider)
  (rider_id : string) (limits : list node) (pages : list (list node))
  (records : list (list (list string))) :
  Py.getitem (split_on "/" (url self)) (-1) = Ok rider_id ->
  offsets (fetch (results_url rider_id "0")) = Ok limits ->
  mapM (fun limit => v <- Bs4.getitem limit "value";;
                     table_rows (fetch (results_url rider_id v))) limits
  = Ok pages ->
  mapM (fun rows => mapM race_row (removelast rows)) pages = Ok records ->
  get_race_history fetch self = Pd.mkDataFrame (concat records) race_columns.
Proof.
  intros I O P R. rewrite get_race_history_pages, I. cbn [Py.bind].
  rewrite O. cbn [Py.bind].
  assert (M : mapM (page_records fetch rider_id) limits = Ok records).
  { rewrite <- (mapM_compose _ _ _ _ _ P R). apply mapM_ext.
    intros l. unfold page_records. symmetry. apply bind_bind. }
  now rewrite M.
Qed.

(** X18: where no page has more than one row, [get_race_history] returns
    the empty frame with the ten columns, whatever the rows hold. *)
Theorem get_race_history_no_rows (fetch : string -> node) (self : Rider)
  (rider_id : string) (limits : list node) (pages : list (list node)) :
  Py.getitem (split_on "/" (url self)) (-1) = Ok rider_id ->
  offsets (fetch (results_url rider_id "0")) = Ok limits ->
  mapM (fun limit => v <- Bs4.getitem limit "value";;
                     table_rows (fetch (results_url rider_id v))) limits
  = Ok pages ->
  Forall (fun rows => (List.length rows <= 1)%nat) pages ->
  get_race_history fetch self
  = Ok {| Pd.columns := race_columns; Pd.values := [] |}.
Proof.
  intros I O P L.
  rewrite (get_race_history_of_records fetch self rider_id limits pages
             _ I O P (no_records pages L)).
  now rewrite concat_nils.
Qed.

Lemma get_race_history_no_rows_witness :
  get_race_history
    (fun _ => BeautifulSoup
                [Tag "select" [("name", "offset")]
                   [Tag "option" [("value", "0")] []];
                 Tag "tbody" [] [Tag "tr" [] [Tag "td" [] []]]])
    {| url := "rider/john-doe"; soup := BeautifulSoup [] |}
  = Ok {| Pd.columns := race_columns; Pd.values := [] |}.
Proof.
  apply (get_race_history_no_rows _ _ "john-doe"
           [Tag "option" [("value", "0")] []]
           [[Tag "tr" [] [Tag "td" [] []]]]).
  - reflexivity.
  - reflexivity.
  - reflexivity.
  - repeat constructor.
Defined.

Lemma width_ge : forall (data : list (list string)) (r : list string),
  In r data -> (List.length r <= Pd.width data)%nat.
Proof.
  induction data as [| x data IH]; intros r I; [contradiction |].
  cbn [Pd.width fold_right]. destruct I as [-> | I].
  - lia.
  - specialize (IH r I). unfold Pd.width in IH. lia.
Qed.

(** X19: where the list of some row has more than ten fields (a row of
    nine cells or more), [get_race_history] raises [ValueError]: the
    frame has ten columns. *)
Theorem get_race_history_too_wide (fetch : string -> node) (self : Rider)
  (rider_id : string) (limits : list node) (pages : list (list node))
  (records : list (list (list string))) (r : list string) :
  Py.getitem (split_on "/" (url self)) (-1) = Ok rider_id ->
  offsets (fetch (results_url rider_id "0")) = Ok limits ->
  mapM (fun limit => v <- Bs4.getitem limit "value";;
                     table_rows (fetch (results_url rider_id v))) limits
  = Ok pages ->
  mapM (fun rows => mapM race_row (removelast rows)) pages = Ok records ->
  In r (concat records) ->
  (10 < List.length r)%nat ->
  get_race_history fetch self = Raise ValueError.
Proof.
  intros I O P R M W.
  rewrite (get_race_history_of_records fetch self rider_id limits pages
             records I O P R).
  unfold Pd.mkDataFrame.
  destruct (concat records) as [| x data] eqn:E; [contradiction |].
  pose proof (width_ge (x :: data) r M) as G.
  replace (Nat.eqb (Pd.width (x :: data)) (List.length race_columns))
    with false; [reflexivity |].
  symmetry. apply Nat.eqb_neq. cbn [race_columns List.length]. lia.
Qed.

Lemma get_race_history_too_wide_witness :
  get_race_history
    (fun _ => BeautifulSoup
                [Tag "select" [("name", "offset")]
                   [Tag "option" [("value", "0")] []];
                 Tag "tbody" [] [wide_row; wide_row]])
    {| url := "rider/john-doe"; soup := BeautifulSoup [] |}
  = Raise ValueError.
Proof.
  apply (get_race_history_too_wide _ _ "john-doe"
           [Tag "option" [("value", "0")] []]
           [[wide_row; wide_row]]
           [[["2023-07-01"; "3"; "Tour de France";
              "race/tour-de-france/2023/stage-1"; "tour-de-france"; "2023";
              "2.UWT"; "-"; "-"; "-"; "-"]]]
           ["2023-07-01"; "3"; "Tour de France";
            "race/tour-de-france/2023/stage-1"; "tour-de-france"; "2023";
            "2.UWT"; "-"; "-"; "-"; "-"]).
  - reflexivity.
  - reflexivity.
  - reflexivity.
  - reflexivity.
  - now left.
  - cbn [List.length]. lia.
Defined.

(** ** The strava reference, when it is found *)

Lemma slash_positions_without : forall s k,
  without "/" s = true -> slash_positions k s = [].
Proof.
  induction s as [| c s IH]; intros k H; [reflexivity |].
  cbn [without all_chars] in H. apply andb_prop in H as [Hc Hs].
  apply negb_true_iff in Hc.
  unfold slash_positions. cbn [list_ascii_of_string enumerate_from filter snd].
  rewrite Hc. apply (IH (k + 1) Hs).
Qed.

Lemma slash_positions_app : forall a b k,
  slash_positions k (a ++ b)
  = slash_positions k a ++ slash_positions (k + len a) b.
Proof.
  induction a as [| c a IH]; intros b k.
  - cbn [append]. unfold len. cbn. now rewrite Z.add_0_r.
  - unfold slash_positions in *.
    cbn [append list_ascii_of_string enumerate_from filter snd].
    replace (k + len (String c a)) with (k + 1 + len a)
      by (rewrite len_cons; lia).
    destruct (Ascii.eqb c "/"); cbn [map app fst]; now rewrite IH.
Qed.

Lemma slash_positions_last (front i : string) :
  without "/" i = true ->
  exists ps, slash_positions 0 (front ++ String "/" i) = ps ++ [len front].
Proof.
  intros W. exists (slash_positions 0 front).
  rewrite slash_positions_app. f_equal.
  unfold slash_positions.
  cbn [list_ascii_of_string enumerate_from filter snd Ascii.eqb Bool.eqb].
  cbn [map fst].
  change (map fst (filter (fun ix => Ascii.eqb (snd ix) "/")
                     (enumerate_from (0 + len front + 1)
                        (list_ascii_of_string i))))
    with (slash_positions (0 + len front + 1) i).
  now rewrite (slash_positions_without i _ W).
Qed.

Lemma slash_positions_some : forall s k,
  without "/" s = false -> slash_positions k s <> [].
Proof.
  induction s as [| c s IH]; intros k H; [discriminate |].
  cbn [without all_chars] in H.
  unfold slash_positions. cbn [list_ascii_of_string enumerate_from filter snd].
  destruct (Ascii.eqb c "/") eqn:E; [discriminate |].
  cbn [negb andb] in H. apply (IH (k + 1) H).
Qed.

Lemma slice_tail (front i : string) :
  slice (front ++ String "/" i) (Some (len front + 1)) None = i.
Proof.
  pose proof (len_nonneg front). pose proof (len_nonneg i).
  unfold slice, clamp.
  replace (len front + 1 <? 0) with false by (symmetry; apply Z.ltb_ge; lia).
  rewrite len_append, len_cons.
  replace (Z.min (len front + 1) (len front + (1 + len i)))
    with (len front + 1) by lia.
  replace (Z.to_nat (len front + 1))
    with (String.length (front ++ "/") + 0)%nat
    by (rewrite length_append; unfold len; cbn [String.length]; lia).
  replace (Z.to_nat (len front + (1 + len i) - (len front + 1)))
    with (String.length i) by (unfold len; lia).
  replace (front ++ String "/" i)%string with ((front ++ "/") ++ i)%string
    by (rewrite append_assoc; reflexivity).
  rewrite substring_skip. apply substring_whole. lia.
Qed.

(** The loop body on an anchor with the child "strava". *)
Lemma strava_step_found (st : strava) (a : node) (front i : string) :
  contains_ "strava" a = true ->
  get a "href" = Some (front ++ "/" ++ i)%string ->
  without "/" i = true ->
  strava_step st a = Ok {| link := (front ++ "/" ++ i)%string; id := i |}.
Proof.
  intros C H W. unfold strava_step. rewrite C, H.
  cbn [subscriptable Py.bind].
  change (front ++ "/" ++ i)%string with (front ++ String "/" i)%string.
  change (map fst (filter (fun ix => Ascii.eqb (snd ix) "/")
                     (enumerate (list_ascii_of_string
                                   (front ++ String "/" i)))))
    with (slash_positions 0 (front ++ String "/" i)).
  destruct (slash_positions_last front i W) as [ps ->].
  rewrite getitem_last. cbn [Py.bind]. now rewrite slice_tail.
Qed.

Lemma strava_step_passes (st : strava) (a : node) :
  passes a = true -> exists st', strava_step st a = Ok st'.
Proof.
  unfold passes, strava_step. intros P.
  destruct (contains_ "strava" a); [| now exists st].
  cbn [negb orb] in P.
  destruct (get a "href") as [h |]; [| discriminate].
  apply negb_true_iff in P. cbn [subscriptable Py.bind].
  change (map fst (filter (fun ix => Ascii.eqb (snd ix) "/")
                     (enumerate (list_ascii_of_string h))))
    with (slash_positions 0 h).
  pose proof (slash_positions_some h 0 P) as NE.
  destruct (exists_last NE) as [ps [p ->]].
  rewrite getitem_last. cbn [Py.bind]. eexists. reflexivity.
Qed.

Lemma strava_loop_passes : forall links st,
  forallb passes links = true ->
  exists st', for_each strava_step links st = Ok st'.
Proof.
  induction links as [| a links IH]; intros st H; [now exists st |].
  cbn [forallb] in H. apply andb_prop in H as [Ha Hl].
  destruct (strava_step_passes st a Ha) as [st1 E].
  cbn [for_each]. rewrite E. cbn [Py.bind]. now apply IH.
Qed.

(** X20: among the anchors the search of [get_strava] selects, the last
    with the child "strava" decides. For an address that ends in a slash
    and a slash-free piece, [get_strava] returns the address as the link
    and that piece as the id, whatever the anchors before it gave. *)
Theorem get_strava_last_found (self : Rider) (before after : list node)
  (a : node) (front i : string) :
  social_links self = Some (before ++ a :: after) ->
  forallb passes before = true ->
  contains_ "strava" a = true ->
  get a "href" = Some (front ++ "/" ++ i)%string ->
  without "/" i = true ->
  forallb (fun x => negb (contains_ "strava" x)) after = true ->
  get_strava self = Ok {| link := (front ++ "/" ++ i)%string; id := i |}.
Proof.
  intros S B C H W A. rewrite (get_strava_links self _ S), for_each_app.
  destruct (strava_loop_passes before {| link := ""; id := "" |} B)
    as [st E].
  rewrite E. cbn [Py.bind for_each].
  rewrite (strava_step_found st a front i C H W). cbn [Py.bind].
  now apply strava_skip.
Qed.

Lemma get_strava_last_found_witness :
  get_strava
    (sites_page [plain_site "https://www.strava.com/athletes/1" "strava";
                 plain_site "https://www.strava.com/athletes/123456" "strava";
                 plain_site "https://twitter.com/johndoe" "Twitter"])
  = Ok {| link := "https://www.strava.com/athletes/123456"; id := "123456" |}.
Proof.
  apply (get_strava_last_found _
           [Tag "a" [("class", "");
                     ("href", "https://www.strava.com/athletes/1")]
              [NavigableString "strava"]]
           [Tag "a" [("class", ""); ("href", "https://twitter.com/johndoe")]
              [NavigableString "Twitter"]]
           (Tag "a" [("class", "");
                     ("href", "https://www.strava.com/athletes/123456")]
              [NavigableString "strava"])
           "https://www.strava.com/athletes" "123456"); reflexivity.
Defined.

(** X21: among the anchors the search of [get_strava] selects, one with
    the child "strava" whose address has no slash makes [get_strava]
    raise [IndexError]. *)
Theorem get_strava_no_slash (self : Rider) (before after : list node)
  (a : node) (h : string) :
  social_links self = Some (before ++ a :: after) ->
  forallb passes before = true ->
  contains_ "strava" a = true ->
  get a "href" = Some h ->
  without "/" h = true ->
  get_strava self = Raise IndexError.
Proof.
  intros S B C H W. rewrite (get_strava_links self _ S), for_each_app.
  destruct (strava_loop_passes before {| link := ""; id := "" |} B)
    as [st E].
  rewrite E. cbn [Py.bind for_each].
  unfold strava_step at 1. rewrite C, H. cbn [subscriptable Py.bind].
  change (map fst (filter (fun ix => Ascii.eqb (snd ix) "/")
                     (enumerate (list_ascii_of_string h))))
    with (slash_positions 0 h).
  now rewrite (slash_positions_without h 0 W).
Qed.

Lemma get_strava_no_slash_witness :
  get_strava (sites_page [plain_site "#" "strava"]) = Raise IndexError.
Proof.
  apply (get_strava_no_slash _ [] []
           (Tag "a" [("class", ""); ("href", "#")] [NavigableString "strava"])
           "#");
    reflexivity.
Defined.

(** ** What the name keeps *)

Lemma letters_replace : forall s,
  letters (replace "  " " " s) = letters s.
Proof.
  induction s as [| c | c d s IHs IHd] using two_step_ind.
  - reflexivity.
  - rewrite replace_sp_other; [reflexivity |].
    rewrite prefix_cons. apply andb_false_r.
  - destruct (prefix "  " (String c (String d s))) eqn:E.
    + pose proof E as E'. rewrite prefix_sp2 in E'.
      apply andb_prop in E' as [Ec Ed].
      apply Ascii.eqb_eq in Ec, Ed. subst c d.
      rewrite replace_sp_pair. cbn [letters].
      unfold sp. rewrite !Ascii.eqb_refl. exact IHs.
    + rewrite (replace_sp_other _ _ E). cbn [letters]. now rewrite IHd.
Qed.

Lemma length_replace : forall s,
  (String.length (replace "  " " " s) <= String.length s)%nat.
Proof.
  induction s as [| c | c d s IHs IHd] using two_step_ind.
  - cbn. lia.
  - rewrite replace_sp_other; [cbn; lia |].
    rewrite prefix_cons. apply andb_false_r.
  - destruct (prefix "  " (String c (String d s))) eqn:E.
    + pose proof E as E'. rewrite prefix_sp2 in E'.
      apply andb_prop in E' as [Ec Ed].
      apply Ascii.eqb_eq in Ec, Ed. subst c d.
      rewrite replace_sp_pair. cbn [String.length]. lia.
    + rewrite (replace_sp_other _ _ E). cbn [String.length] in *. lia.
Qed.

(** X22: [get_name] only removes spaces: the result has the characters
    of the title that are not spaces, in order, is never longer than the
    title, and is the title itself when the title has no double space. *)
Theorem get_name_keeps_letters (self : Rider) (t : string) :
  title_text self = Some t ->
  exists r,
    get_name self = Ok r
    /\ letters r = letters t
    /\ (String.length r <= String.length t)%nat
    /\ (contains "  " t = false -> r = t).
Proof.
  intros H. exists (replace "  " " " t).
  split; [now apply get_name_replace |].
  split; [apply letters_replace |].
  split; [apply length_replace |].
  apply replace_sp_absent.
Qed.

Lemma get_name_keeps_letters_witness :
  exists r,
    get_name (title_page "Jean  van  der   Berg") = Ok r
    /\ letters r = "JeanvanderBerg"
    /\ (String.length r <= 21)%nat
    /\ (contains "  " "Jean  van  der   Berg" = false ->
        r = "Jean  van  der   Berg").
Proof.
  apply (get_name_keeps_letters (title_page "Jean  van  der   Berg")
           "Jean  van  der   Berg").
  reflexivity.
Defined.

(** ** The height, read as a decimal *)

Lemma all_chars_app (p : ascii -> bool) (a b : string) :
  all_chars p (a ++ b) = all_chars p a && all_chars p b.
Proof.
  induction a as [| x a IH]; [reflexivity |].
  cbn [append all_chars]. now rewrite IH, andb_assoc.
Qed.

Lemma whole_all (s : string) : whole s = true -> all_chars isdecimal s = true.
Proof. destruct s; [discriminate | trivial]. Qed.

(** The digits stop at a decimal point. *)
Lemma digits_from_point : forall a acc n b,
  all_chars isdecimal a = true ->
  digits_from acc n (a ++ String "." b)
  = (decimal_from acc a, n + len a, String "." b).
Proof.
  induction a as [| c a IH]; intros acc n b H.
  - cbn. now rewrite Z.add_0_r.
  - cbn [all_chars] in H. apply andb_prop in H as [Hc Ha].
    cbn [append digits_from decimal_from]. rewrite Hc, (IH _ _ _ Ha).
    f_equal. f_equal. rewrite len_cons. lia.
Qed.

(** [float] reads digits, a point and digits as the decimal they write. *)
Lemma float_decimal (a b : string) :
  whole a = true ->
  whole b = true ->
  float (a ++ "." ++ b)
  = Ok (Finite false (whole_value a * 10 ^ len b + whole_value b) (- len b)).
Proof.
  intros A B. unfold float.
  change (a ++ "." ++ b)%string with (a ++ String "." b)%string.
  pose proof (whole_all a A) as Aa. pose proof (whole_all b B) as Bb.
  assert (T : trim (a ++ String "." b) = (a ++ String "." b)%string).
  { unfold trim.
    assert (L : trim_left (a ++ String "." b) = (a ++ String "." b)%string).
    { destruct a as [| c a]; [discriminate |].
      cbn [all_chars] in Aa. apply andb_prop in Aa as [Hc _].
      cbn [append trim_left]. now rewrite (isdecimal_not_blank c Hc). }
    rewrite L. apply trim_right_no_blank.
    rewrite all_chars_app. cbn [all_chars].
    assert (N : forall s, all_chars isdecimal s = true ->
                          all_chars (fun c => negb (isblank c)) s = true).
    { apply all_chars_impl. intros c Hc.
      now rewrite (isdecimal_not_blank c Hc). }
    rewrite (N a Aa), (N b Bb). reflexivity. }
  rewrite T.
  destruct a as [| c a]; [discriminate |].
  assert (Hc : isdecimal c = true)
    by (cbn [all_chars] in Aa; now apply andb_prop in Aa).
  cbn [append]. rewrite (isdecimal_sign c _ Hc).
  cbn [lowercase String.eqb]. rewrite (isdecimal_lower c Hc).
  destruct (isdecimal_not_letter c Hc) as [Hi Hn]. rewrite Hi, Hn.
  cbn [orb]. unfold floatnumber, digitpart at 1. rewrite Hc.
  change (String c (a ++ String "." b))
    with (String c a ++ String "." b)%string.
  rewrite (digits_from_point (String c a) 0 0 b Aa).
  rewrite (digitpart_whole b B). cbn [exponent].
  unfold whole_value. now rewrite Z.sub_0_l.
Qed.

(** X23: where the first text of the info block with " m" starts with a
    token of digits, a point and digits, [get_height] returns the decimal
    they write: for "1.85", 185 hundredths. *)
Theorem get_height_decimal (self : Rider) (d : node) (s a b : string)
  (rest : list string) :
  info_cont self = Some d ->
  find_string " m" d = Some s ->
  split s = (a ++ "." ++ b)%string :: rest ->
  whole a = true ->
  whole b = true ->
  get_height self
  = Ok (Some (Finite false (whole_value a * 10 ^ len b + whole_value b)
                (- len b))).
Proof.
  intros I F S A B. rewrite (get_height_info self d I), F.
  cbn [PyObj.of_option PyObj.str]. rewrite S.
  change (Py.getitem ((a ++ "." ++ b)%string :: rest) 0)
    with (Ok (a ++ "." ++ b)%string).
  cbn [Py.bind]. now rewrite (float_decimal a b A B).
Qed.

Lemma get_height_decimal_witness :
  get_height (info_page (weight_block " 68 kg"))
  = Ok (Some (Finite false 185 (-2))).
Proof.
  apply (get_height_decimal (info_page (weight_block " 68 kg"))
           (Tag "div" [("class", "rdr-info-cont")] (weight_block " 68 kg"))
           " 1.85 m" "1" "85" ["m"]); reflexivity.
Defined.

(** ** The weight without a digit token *)

(** X24: where the first text of the info block with " kg" has no token
    made of digits only (a weight such as "68.5" or "68,5"),
    [get_weight] raises [IndexError]. *)
Theorem get_weight_no_digit_token (self : Rider) (d : node) (s : string) :
  info_cont self = Some d ->
  find_string " kg" d = Some s ->
  filter isdigit (split s) = [] ->
  get_weight self = Raise IndexError.
Proof.
  intros I F N. rewrite (get_weight_info self d I), F.
  cbn [PyObj.of_option PyObj.str]. now rewrite N.
Qed.

Lemma get_weight_no_digit_token_witness :
  get_weight (info_page (weight_block " 68,5 kg")) = Raise IndexError.
Proof.
  apply (get_weight_no_digit_token (info_page (weight_block " 68,5 kg"))
           (Tag "div" [("class", "rdr-info-cont")] (weight_block " 68,5 kg"))
           " 68,5 kg"); reflexivity.
Defined.

(** ** A page that cannot be read *)

Lemma mapM_stops {A B} (f : A -> result B) (x : A) (e : exn) :
  forall before after ys,
    mapM f before = Ok ys ->
    f x = Raise e ->
    mapM f (before ++ x :: after) = Raise e.
Proof.
  induction before as [| b before IH]; intros after ys M X.
  - cbn [app mapM]. now rewrite X.
  - cbn [mapM] in M. apply bind_Ok in M as [y [Y M]].
    apply bind_Ok in M as [ys' [M' _]].
    cbn [app mapM]. rewrite Y. cbn [Py.bind].
    now rewrite (IH after ys' M' X).
Qed.

(** X25: once the pages of the offsets before it were read, an option
    without a [value] makes [get_race_history] raise [KeyError], and a
    page without a table body [AttributeError]. *)
Theorem get_race_history_unreadable_page (fetch : string -> node)
  (self : Rider) (rider_id : string) (before after : list node)
  (limit : node) (rss : list (list (list string))) :
  Py.getitem (split_on "/" (url self)) (-1) = Ok rider_id ->
  offsets (fetch (results_url rider_id "0")) = Ok (before ++ limit :: after) ->
  mapM (page_records fetch rider_id) before = Ok rss ->
  (get limit "value" = None ->
   get_race_history fetch self = Raise KeyError)
  /\ (forall v,
         get limit "value" = Some v ->
         find (Some "tbody") [] (fetch (results_url rider_id v)) = None ->
         get_race_history fetch self = Raise AttributeError).
Proof.
  intros I O M. split.
  - intros V. rewrite get_race_history_pages, I. cbn [Py.bind].
    rewrite O. cbn [Py.bind].
    rewrite (mapM_stops _ limit KeyError before after rss M); [reflexivity |].
    unfold page_records, Bs4.getitem. now rewrite V.
  - intros v V T. rewrite get_race_history_pages, I. cbn [Py.bind].
    rewrite O. cbn [Py.bind].
    rewrite (mapM_stops _ limit AttributeError before after rss M);
      [reflexivity |].
    unfold page_records, Bs4.getitem, table_rows. rewrite V.
    cbn [Py.bind]. now rewrite T.
Qed.

Lemma get_race_history_unreadable_page_witness :
  get_race_history
    (fun _ => BeautifulSoup
                [Tag "select" [("name", "offset")]
                   [Tag "option" [("value", "0")] [];
                    Tag "option" [] []];
                 Tag "tbody" [] [Tag "tr" [] []]])
    {| url := "rider/john-doe"; soup := BeautifulSoup [] |}
  = Raise KeyError.
Proof.
  pose proof (get_race_history_unreadable_page
                (fun _ => BeautifulSoup
                            [Tag "select" [("name", "offset")]
                               [Tag "option" [("value", "0")] [];
                                Tag "option" [] []];
                             Tag "tbody" [] [Tag "tr" [] []]])
                {| url := "rider/john-doe"; soup := BeautifulSoup [] |}
                "john-doe" [Tag "option" [("value", "0")] []] []
                (Tag "option" [] []) [[]] eq_refl eq_refl eq_refl) as [K _].
  apply K. reflexivity.
Defined.
